(** * k8s-drone-controller: reconcilers over an explicit model of the store

    The controllers of this repository are written against the
    controller-runtime client: every read and write goes through
    [Get], [List], [Create], [Update], [Status().Update] and [Delete],
    each of which may fail.  The development below threads an explicit
    client state through the reconcilers: the cluster contents, a
    schedule of transient faults, and the log of the calls issued with
    their results. *)

From Stdlib Require Import Ascii String List ZArith Bool Lia.
Import ListNotations.
Open Scope string_scope.
Open Scope list_scope.

(** ** Errors *)

(** Transient failures of the store (spec, error taxonomy (3) and (4)). *)
Inductive Fault : Type :=
| Conflict
| Unavailable.

(** The errors a client call can return.  [NotFound] and [AlreadyExists]
    are produced by the contents of the store, [Transient] by the fault
    schedule. *)
Inductive error : Type :=
| NotFound
| AlreadyExists
| Transient (f : Fault).

(** [apierrors.IsNotFound]; a nil error is [None]. *)
Definition IsNotFound (err : option error) : bool :=
  match err with
  | Some NotFound => true
  | _ => false
  end.

(** [client.IgnoreNotFound]. *)
Definition IgnoreNotFound (err : option error) : option error :=
  if IsNotFound err then None else err.

(** What a call of [Reconcile] does: it returns [(ctrl.Result{}, err)]
    (the result is always empty) or it panics. *)
Inductive Outcome : Type :=
| Return (err : option error)
| Panic.

(** ** Object metadata *)

Record OwnerReference : Type := mkOwnerReference
  { APIVersion : string;
    OwnerKind : string;
    OwnerName : string;
    Controller : bool }.

Record ObjectMeta : Type := mkObjectMeta
  { Name : string;
    Namespace : string;
    Labels : list (string * string);
    OwnerReferences : list OwnerReference }.

(** [ctrl.Request]. *)
Record Request : Type := mkRequest
  { ReqNamespace : string;
    ReqName : string }.

(** Objects of the store carry metadata (the [metav1.Object] interface). *)
Class KObject (A : Type) : Type :=
  { meta : A -> ObjectMeta }.

(** [madmdv1.GroupVersion.String()]: group and version of the CRDs. *)
Definition GroupVersion : string := "experiments.mad.md/v1".

(** [metav1.GetControllerOf]: the first owner reference flagged as
    controller. *)
Definition GetControllerOf (m : ObjectMeta) : option OwnerReference :=
  find Controller (OwnerReferences m).

(** [metav1.NewControllerRef(&Drone, GroupVersion.WithKind("Drone"))]. *)
Definition NewControllerRef (owner : ObjectMeta) : OwnerReference :=
  {| APIVersion := GroupVersion;
     OwnerKind := "Drone";
     OwnerName := Name owner;
     Controller := true |}.

(** The index function registered by [SetupWithManager] under
    [".metadata.controller"]. *)
Definition ownerIndex (m : ObjectMeta) : list string :=
  match GetControllerOf m with
  | None => []
  | Some owner =>
      if negb (APIVersion owner =? GroupVersion) || negb (OwnerKind owner =? "Drone")
      then []
      else [OwnerName owner]
  end.

(** [stringInSlice]. *)
Fixpoint stringInSlice (a : string) (list : list string) : bool :=
  match list with
  | [] => false
  | b :: rest => if b =? a then true else stringInSlice a rest
  end.

(** [client.MatchingField(key, v)] over the owner index. *)
Definition MatchingField (v : string) (m : ObjectMeta) : bool :=
  stringInSlice v (ownerIndex m).

(** Label lookup, and [client.MatchingLabels{k: v}]. *)
Fixpoint label (k : string) (ls : list (string * string)) : option string :=
  match ls with
  | [] => None
  | (k', v) :: rest => if k' =? k then Some v else label k rest
  end.

Definition MatchingLabel (k v : string) (m : ObjectMeta) : bool :=
  match label k (Labels m) with
  | Some v' => v' =? v
  | None => false
  end.

(** [int32(n)]: conversion with wrap-around. *)
Definition to_int32 (z : Z) : Z :=
  (z + 2 ^ 31) mod 2 ^ 32 - 2 ^ 31.

(** ** Collections of objects, keyed by namespace and name *)

Section Keyed.
Context {A : Type} `{KObject A}.

Definition hasKey (ns name : string) (x : A) : bool :=
  (Namespace (meta x) =? ns) && (Name (meta x) =? name).

Definition lookup (ns name : string) (l : list A) : option A :=
  find (hasKey ns name) l.

Definition remove (ns name : string) (l : list A) : list A :=
  filter (fun x => negb (hasKey ns name x)) l.

Fixpoint replace (y : A) (l : list A) : list A :=
  match l with
  | [] => []
  | x :: rest =>
      if hasKey (Namespace (meta y)) (Name (meta y)) x
      then y :: rest
      else x :: replace y rest
  end.

Definition InNamespace (ns : string) (x : A) : bool :=
  Namespace (meta x) =? ns.

(** No two objects of the collection share a key. *)
Definition keys (l : list A) : list (string * string) :=
  map (fun x => (Namespace (meta x), Name (meta x))) l.

Definition uniqueKeys (l : list A) : Prop := NoDup (keys l).
End Keyed.

(** ** The client *)

Inductive Verb : Type :=
| VGet | VList | VCreate | VUpdate | VStatusUpdate | VDelete.

Inductive Kind : Type :=
| KSwarm | KDrone | KDeployment | KPod | KNode.

(** One call against the store, with the error it returned. *)
Record Call : Type := mkCall
  { verb : Verb;
    kind : Kind;
    callNamespace : string;
    callName : string;
    result : option error }.

(** The state threaded through a reconciliation: the cluster's contents,
    the faults still to come (one entry is consumed by each call; an
    exhausted schedule injects nothing) and the calls issued so far,
    oldest first. *)
Record Client (S : Type) : Type := mkClient
  { store : S;
    faults : list (option Fault);
    calls : list Call }.

Arguments mkClient {S}.
Arguments store {S}.
Arguments faults {S}.
Arguments calls {S}.

Definition M (S A : Type) : Type := Client S -> A * Client S.

Definition ret {S A : Type} (a : A) : M S A := fun c => (a, c).

Definition bind {S A B : Type} (m : M S A) (k : A -> M S B) : M S B :=
  fun c => let (a, c') := m c in k a c'.

Declare Scope client_scope.
Delimit Scope client_scope with client.
Notation "x <- m ;; k" := (bind m (fun x => k))
  (at level 100, m at next level, right associativity) : client_scope.
Open Scope client_scope.

(** The fault injected into the next call. *)
Definition nextFault {S : Type} : M S (option Fault) :=
  fun c =>
    match faults c with
    | [] => (None, c)
    | f :: fs => (f, mkClient (store c) fs (calls c))
    end.

Definition logCall {S : Type} (v : Verb) (k : Kind) (ns name : string)
    (r : option error) : M S unit :=
  fun c => (tt, mkClient (store c) (faults c) (calls c ++ [mkCall v k ns name r])).

Definition setStore {S : Type} (f : S -> S) : M S unit :=
  fun c => (tt, mkClient (f (store c)) (faults c) (calls c)).

Definition getStore {S : Type} : M S S :=
  fun c => (store c, c).

Definition errOf {A : Type} (r : error + A) : option error :=
  match r with
  | inl e => Some e
  | inr _ => None
  end.

(** Typed operations on one kind of object, held in the component
    [proj] of the cluster. *)
Section Operations.
Context {S A : Type} `{KObject A}.
Variable k : Kind.
Variable proj : S -> list A.
Variable inj : list A -> S -> S.

(** [Get(ctx, key, &obj)]. *)
Definition clientGet (ns name : string) : M S (error + A) :=
  f <- nextFault ;;
  s <- getStore ;;
  let r := match f with
           | Some flt => inl (Transient flt)
           | None => match lookup ns name (proj s) with
                     | Some x => inr x
                     | None => inl NotFound
                     end
           end in
  _ <- logCall VGet k ns name (errOf r) ;;
  ret r.

(** [List(ctx, &list, opts...)]: the objects selected by [sel], in the
    order the store holds them. *)
Definition clientList (ns : string) (sel : A -> bool) : M S (error + list A) :=
  f <- nextFault ;;
  s <- getStore ;;
  let r := match f with
           | Some flt => inl (Transient flt)
           | None => inr (filter sel (proj s))
           end in
  _ <- logCall VList k ns "" (errOf r) ;;
  ret r.

(** [Create(ctx, &obj)]. *)
Definition clientCreate (x : A) : M S (option error) :=
  f <- nextFault ;;
  s <- getStore ;;
  let ns := Namespace (meta x) in
  let name := Name (meta x) in
  match f with
  | Some flt =>
      _ <- logCall VCreate k ns name (Some (Transient flt)) ;;
      ret (Some (Transient flt))
  | None =>
      match lookup ns name (proj s) with
      | Some _ =>
          _ <- logCall VCreate k ns name (Some AlreadyExists) ;;
          ret (Some AlreadyExists)
      | None =>
          _ <- setStore (inj (proj s ++ [x])) ;;
          _ <- logCall VCreate k ns name None ;;
          ret None
      end
  end.

(** [Update(ctx, &obj)] when [merge] keeps the new object,
    [Status().Update(ctx, &obj)] when it keeps the stored object but
    for its status. *)
Definition clientWrite (v : Verb) (merge : A -> A -> A) (x : A) : M S (option error) :=
  f <- nextFault ;;
  s <- getStore ;;
  let ns := Namespace (meta x) in
  let name := Name (meta x) in
  match f with
  | Some flt =>
      _ <- logCall v k ns name (Some (Transient flt)) ;;
      ret (Some (Transient flt))
  | None =>
      match lookup ns name (proj s) with
      | None =>
          _ <- logCall v k ns name (Some NotFound) ;;
          ret (Some NotFound)
      | Some old =>
          _ <- setStore (inj (replace (merge old x) (proj s))) ;;
          _ <- logCall v k ns name None ;;
          ret None
      end
  end.

Definition clientUpdate (x : A) : M S (option error) :=
  clientWrite VUpdate (fun _ new => new) x.

(** [Delete(ctx, &obj)]. *)
Definition clientDelete (ns name : string) : M S (option error) :=
  f <- nextFault ;;
  s <- getStore ;;
  match f with
  | Some flt =>
      _ <- logCall VDelete k ns name (Some (Transient flt)) ;;
      ret (Some (Transient flt))
  | None =>
      match lookup ns name (proj s) with
      | None =>
          _ <- logCall VDelete k ns name (Some NotFound) ;;
          ret (Some NotFound)
      | Some _ =>
          _ <- setStore (inj (remove ns name (proj s))) ;;
          _ <- logCall VDelete k ns name None ;;
          ret None
      end
  end.
End Operations.

(** [for _, x := range items { body }], where the body either returns
    from the enclosing function ([Some]) or falls to the next iteration
    ([None], also for [continue]). *)
Fixpoint forRange {S A R : Type} (items : list A) (body : A -> M S (option R))
    : M S (option R) :=
  match items with
  | [] => ret None
  | x :: rest =>
      r <- body x ;;
      match r with
      | Some o => ret (Some o)
      | None => forRange rest body
      end
  end.

(** ** Replica-counted strategy: [controllers/drone_controller.go] *)

Module Replica.

(** [api/v1/drone_types.go]. *)
Record DroneSpec : Type := mkDroneSpec
  { HowMany : option Z }.

Record DroneStatus : Type := mkDroneStatus
  { FlyingDrones : Z }.

Record Drone : Type := mkDrone
  { DroneMeta : ObjectMeta;
    Spec : DroneSpec;
    Status : DroneStatus }.

(** The fields of [apps.Deployment] the controller reads or writes. *)
Record EnvVar : Type := mkEnvVar
  { EnvName : string;
    EnvValue : string }.

Record Container : Type := mkContainer
  { ContainerName : string;
    Image : string;
    Env : list EnvVar }.

Record DeploymentSpec : Type := mkDeploymentSpec
  { Replicas : option Z;
    MatchLabels : list (string * string);
    TemplateLabels : list (string * string);
    Containers : list Container }.

Record DeploymentStatus : Type := mkDeploymentStatus
  { StatusReplicas : Z }.

Record Deployment : Type := mkDeployment
  { DeploymentMeta : ObjectMeta;
    DSpec : DeploymentSpec;
    DStatus : DeploymentStatus }.

#[global] Instance Drone_KObject : KObject Drone := {| meta := DroneMeta |}.
#[global] Instance Deployment_KObject : KObject Deployment := {| meta := DeploymentMeta |}.

(** The part of the cluster this reconciler touches. *)
Record Cluster : Type := mkCluster
  { drones : list Drone;
    deployments : list Deployment }.

Definition setDrones (l : list Drone) (s : Cluster) : Cluster :=
  mkCluster l (deployments s).

Definition setDeployments (l : list Deployment) (s : Cluster) : Cluster :=
  mkCluster (drones s) l.

(** [Status().Update] of a Drone keeps the stored object and takes the
    status of the one passed. *)
Definition mergeStatus (old new : Drone) : Drone :=
  mkDrone (DroneMeta old) (Spec old) (Status new).

Definition withFlyingDrones (d : Drone) (n : Z) : Drone :=
  mkDrone (DroneMeta d) (Spec d) (mkDroneStatus n).

Definition withReplicas (d : Deployment) (n : option Z) : Deployment :=
  mkDeployment (DeploymentMeta d)
    (mkDeploymentSpec n (MatchLabels (DSpec d)) (TemplateLabels (DSpec d))
       (Containers (DSpec d)))
    (DStatus d).

Definition buildDeployment (Drone : Drone) : Deployment :=
  {| DeploymentMeta :=
       {| Name := "mydrones";
          Namespace := Namespace (DroneMeta Drone);
          Labels := [];
          OwnerReferences := [NewControllerRef (DroneMeta Drone)] |};
     DSpec :=
       {| Replicas := HowMany (Spec Drone);
          MatchLabels :=
            [("example-controller.jetstack.io/deployment-name", "mydrones")];
          TemplateLabels :=
            [("example-controller.jetstack.io/deployment-name", "mydrones")];
          Containers :=
            [ {| ContainerName := "drone-pod";
                 Image := "danacr/drone-pod:latest";
                 Env := [ {| EnvName := "NODE"; EnvValue := "rockpi0" |} ] |} ] |};
     DStatus := {| StatusReplicas := 0%Z |} |}.

(** The deployments [cleanupOwnedResources] lists: those of the
    Drone's namespace that the owner index files under its name. *)
Definition ownedBy (Drone : Drone) (depl : Deployment) : bool :=
  InNamespace (Namespace (DroneMeta Drone)) depl
  && MatchingField (Name (DroneMeta Drone)) (DeploymentMeta depl).

(** The body of the loop of [cleanupOwnedResources]. *)
Definition cleanupBody (depl : Deployment) : M Cluster (option error) :=
  if Name (DeploymentMeta depl) =? "mydrones" then
    ret None
  else
    e <- clientDelete KDeployment deployments setDeployments
           (Namespace (DeploymentMeta depl)) (Name (DeploymentMeta depl)) ;;
    match e with
    | Some err => ret (Some err)
    | None => ret None
    end.

Definition cleanupOwnedResources (Drone : Drone) : M Cluster (option error) :=
  r <- clientList KDeployment deployments
         (Namespace (DroneMeta Drone)) (ownedBy Drone) ;;
  match r with
  | inl err => ret (Some err)
  | inr items => forRange items cleanupBody
  end.

(** [expectedReplicas := int32(1); if Drone.Spec.HowMany != nil
    { expectedReplicas = *Drone.Spec.HowMany }]. *)
Definition expectedReplicas (Drone : Drone) : Z :=
  match HowMany (Spec Drone) with
  | Some n => n
  | None => 1%Z
  end.

Definition Reconcile (req : Request) : M Cluster Outcome :=
  r <- clientGet KDrone drones (ReqNamespace req) (ReqName req) ;;
  match r with
  | inl err => ret (Return (IgnoreNotFound (Some err)))
  | inr Drone =>
      e <- cleanupOwnedResources Drone ;;
      match e with
      | Some err => ret (Return (Some err))
      | None =>
          r <- clientGet KDeployment deployments
                 (Namespace (DroneMeta Drone)) "mydrones" ;;
          let err := errOf r in
          match r with
          | inl NotFound =>
              e <- clientCreate KDeployment deployments setDeployments
                     (buildDeployment Drone) ;;
              match e with
              | Some err => ret (Return (Some err))
              | None => ret (Return None)
              end
          | inl _ => ret (Return err)
          | inr deployment =>
              let expectedReplicas := expectedReplicas Drone in
              match Replicas (DSpec deployment) with
              | None => ret Panic
              | Some replicas =>
                  if negb (replicas =? expectedReplicas)%Z then
                    e <- clientUpdate KDeployment deployments setDeployments
                           (withReplicas deployment (Some expectedReplicas)) ;;
                    match e with
                    | Some err => ret (Return (Some err))
                    | None => ret (Return None)
                    end
                  else
                    (* [if r.Client.Status().Update(ctx, &Drone); err != nil]:
                       the call's own result is discarded, the condition
                       reads the [err] of the deployment lookup *)
                    _ <- clientWrite KDrone drones setDrones VStatusUpdate mergeStatus
                           (withFlyingDrones Drone
                              (StatusReplicas (DStatus deployment))) ;;
                    match err with
                    | Some _ => ret (Return err)
                    | None => ret (Return None)
                    end
              end
          end
      end
  end.

End Replica.

(** ** Pod-per-node strategy and the Swarm reconciler *)

Module Fleet.

(** The Drone of the pod-per-node revision: no spec fields, and a
    [Flying] flag as status. *)
Record Drone : Type := mkDrone
  { DroneMeta : ObjectMeta;
    Flying : bool }.

(** Modelled from the spec: the Go declaration of [Swarm]
    ([swarm_types.go]) is not part of the sources; the record schema is
    [spec.howmany: int32?] and [status.flyingdrones: int32], and the
    reconciler reads [*swarm.Spec.HowMany] through a pointer. *)
Record Swarm : Type := mkSwarm
  { SwarmMeta : ObjectMeta;
    HowMany : option Z;
    FlyingDrones : Z }.

Record EnvVar : Type := mkEnvVar
  { EnvName : string;
    FieldRefAPIVersion : string;
    FieldPath : string }.

Record Container : Type := mkContainer
  { ContainerName : string;
    Image : string;
    Env : list EnvVar }.

Record Pod : Type := mkPod
  { PodMeta : ObjectMeta;
    NodeName : string;
    NodeSelector : list (string * string);
    Containers : list Container }.

Record Node : Type := mkNode
  { NodeMeta : ObjectMeta }.

#[global] Instance Drone_KObject : KObject Drone := {| meta := DroneMeta |}.
#[global] Instance Swarm_KObject : KObject Swarm := {| meta := SwarmMeta |}.
#[global] Instance Pod_KObject : KObject Pod := {| meta := PodMeta |}.
#[global] Instance Node_KObject : KObject Node := {| meta := NodeMeta |}.

Record Cluster : Type := mkCluster
  { swarms : list Swarm;
    drones : list Drone;
    pods : list Pod;
    nodes : list Node }.

Definition setSwarms (l : list Swarm) (s : Cluster) : Cluster :=
  mkCluster l (drones s) (pods s) (nodes s).

Definition setDrones (l : list Drone) (s : Cluster) : Cluster :=
  mkCluster (swarms s) l (pods s) (nodes s).

Definition setPods (l : list Pod) (s : Cluster) : Cluster :=
  mkCluster (swarms s) (drones s) l (nodes s).

Definition setNodes (l : list Node) (s : Cluster) : Cluster :=
  mkCluster (swarms s) (drones s) (pods s) l.

Definition withFlying (d : Drone) (b : bool) : Drone :=
  mkDrone (DroneMeta d) b.

Definition withFlyingDrones (s : Swarm) (n : Z) : Swarm :=
  mkSwarm (SwarmMeta s) (HowMany s) n.

Module DroneReconciler.

Definition buildPod (Drone : Drone) (dronenodename : string) : Pod :=
  {| PodMeta :=
       {| Name := Name (DroneMeta Drone);
          Namespace := Namespace (DroneMeta Drone);
          Labels := [];
          OwnerReferences := [NewControllerRef (DroneMeta Drone)] |};
     NodeName := "";
     NodeSelector := [("kubernetes.io/hostname", dronenodename)];
     Containers :=
       [ {| ContainerName := "drone-pod";
            Image := "danacr/drone-pod:latest";
            Env := [ {| EnvName := "NODE";
                        FieldRefAPIVersion := "v1";
                        FieldPath := "spec.nodeName" |} ] |} ] |}.

(** The body of [for _, dronenode := range dronenodes.Items]; [err]
    is the error of the pod lookup, which the two
    [if r.Update(ctx, &Drone); err != nil] read. *)
Definition placeBody (Drone : Drone) (err : option error)
    (dronePodNodeNameList : list string) (dronenode : Node)
    : M Cluster (option Outcome) :=
  if negb (stringInSlice (Name (NodeMeta dronenode)) dronePodNodeNameList) then
    e <- clientCreate KPod pods setPods
           (buildPod Drone (Name (NodeMeta dronenode))) ;;
    match e with
    | Some err => ret (Some (Return (Some err)))
    | None =>
        _ <- clientUpdate KDrone drones setDrones (withFlying Drone true) ;;
        match err with
        | Some _ => ret (Some (Return err))
        | None => ret (Some (Return None))
        end
    end
  else
    _ <- clientUpdate KDrone drones setDrones (withFlying Drone false) ;;
    match err with
    | Some _ => ret (Some (Return err))
    | None => ret (Some (Return None))
    end.

Definition Reconcile (req : Request) : M Cluster Outcome :=
  r <- clientGet KDrone drones (ReqNamespace req) (ReqName req) ;;
  match r with
  | inl err => ret (Return (IgnoreNotFound (Some err)))
  | inr Drone =>
      r <- clientGet KPod pods
             (Namespace (DroneMeta Drone)) (Name (DroneMeta Drone)) ;;
      let err := errOf r in
      if IsNotFound err then
        r <- clientList KNode nodes ""
               (fun n => MatchingLabel "node-role.kubernetes.io/drone" "drone"
                           (NodeMeta n)) ;;
        match r with
        | inl err => ret (Return (Some err))
        | inr dronenodes =>
            r <- clientList KPod pods (Namespace (DroneMeta Drone))
                   (InNamespace (Namespace (DroneMeta Drone))) ;;
            match r with
            | inl err => ret (Return (Some err))
            | inr dronepods =>
                let dronePodNodeNameList := map NodeName dronepods in
                o <- forRange dronenodes
                       (placeBody Drone err dronePodNodeNameList) ;;
                match o with
                | Some out => ret out
                | None =>
                    match err with
                    | Some _ => ret (Return err)
                    | None => ret (Return None)
                    end
                end
            end
        end
      else
        match err with
        | Some _ => ret (Return err)
        | None => ret (Return None)
        end
  end.

End DroneReconciler.

Module SwarmReconciler.

(** [strings.ReplaceAll(s, "_", "-")]. *)
Fixpoint ReplaceAll (s : string) : string :=
  match s with
  | EmptyString => EmptyString
  | String c rest =>
      String (if Ascii.eqb c "_"%char then "-"%char else c) (ReplaceAll rest)
  end.

(** [randomName] is what [namesgenerator.GetRandomName(0)] returns
    when the reconciler asks for a name. *)
Definition Reconcile (randomName : string) (req : Request) : M Cluster Outcome :=
  r <- clientGet KSwarm swarms (ReqNamespace req) (ReqName req) ;;
  match r with
  | inl err => ret (Return (IgnoreNotFound (Some err)))
  | inr swarm =>
      r <- clientList KDrone drones "" (fun _ : Drone => true) ;;
      match r with
      | inl err => ret (Return (Some err))
      | inr items =>
          match HowMany swarm with
          | None => ret Panic
          | Some howmany =>
              e <- (if (to_int32 (Z.of_nat (length items)) <? howmany)%Z then
                      let name := ReplaceAll randomName in
                      clientCreate KDrone drones setDrones
                        (mkDrone (mkObjectMeta name (ReqNamespace req) [] []) false)
                    else ret None) ;;
              match e with
              | Some err => ret (Return (Some err))
              | None =>
                  p <- (if (to_int32 (Z.of_nat (length items)) >? howmany)%Z then
                          match items with
                          | [] => ret false
                          | first :: _ =>
                              _ <- clientDelete KDrone drones setDrones
                                     (ReqNamespace req) (Name (DroneMeta first)) ;;
                              ret true
                          end
                        else ret true) ;;
                  if negb p then ret Panic else
                  r <- clientList KDrone drones "" (fun _ : Drone => true) ;;
                  match r with
                  | inl err => ret (Return (Some err))
                  | inr items' =>
                      err <- clientUpdate KSwarm swarms setSwarms
                               (withFlyingDrones swarm
                                  (to_int32 (Z.of_nat (length items')))) ;;
                      match err with
                      | Some _ => ret (Return err)
                      | None => ret (Return None)
                      end
                  end
              end
          end
      end
  end.

End SwarmReconciler.

End Fleet.


(** ** Named-pod strategy: the revision of the Drone reconciler that keeps
    one pod named by [Drone.Spec.Name] *)

Module Named.

Record DroneSpec : Type := mkDroneSpec
  { SpecName : string }.

Record DroneStatus : Type := mkDroneStatus
  { StatusName : string }.

Record Drone : Type := mkDrone
  { DroneMeta : ObjectMeta;
    Spec : DroneSpec;
    Status : DroneStatus }.

Record EnvVar : Type := mkEnvVar
  { EnvName : string;
    EnvValue : string }.

Record Container : Type := mkContainer
  { ContainerName : string;
    Image : string;
    Env : list EnvVar }.

Record Pod : Type := mkPod
  { PodMeta : ObjectMeta;
    Containers : list Container }.

#[global] Instance Drone_KObject : KObject Drone := {| meta := DroneMeta |}.
#[global] Instance Pod_KObject : KObject Pod := {| meta := PodMeta |}.

Record Cluster : Type := mkCluster
  { drones : list Drone;
    pods : list Pod }.

Definition setDrones (l : list Drone) (s : Cluster) : Cluster :=
  mkCluster l (pods s).

Definition setPods (l : list Pod) (s : Cluster) : Cluster :=
  mkCluster (drones s) l.

Definition mergeStatus (old new : Drone) : Drone :=
  mkDrone (DroneMeta old) (Spec old) (Status new).

Definition withStatusName (d : Drone) (n : string) : Drone :=
  mkDrone (DroneMeta d) (Spec d) (mkDroneStatus n).

Definition buildPod (Drone : Drone) : Pod :=
  {| PodMeta :=
       {| Name := SpecName (Spec Drone);
          Namespace := Namespace (DroneMeta Drone);
          Labels := [];
          OwnerReferences := [NewControllerRef (DroneMeta Drone)] |};
     Containers :=
       [ {| ContainerName := "drone-pod";
            Image := "danacr/drone-pod:latest";
            Env := [ {| EnvName := "NODE"; EnvValue := "rockpi0" |} ] |} ] |}.

(** The pods [cleanupOwnedResources] lists. *)
Definition ownedBy (Drone : Drone) (po : Pod) : bool :=
  InNamespace (Namespace (DroneMeta Drone)) po
  && MatchingField (Name (DroneMeta Drone)) (PodMeta po).

(** The body of the loop of [cleanupOwnedResources]. *)
Definition cleanupBody (Drone : Drone) (po : Pod) : M Cluster (option error) :=
  if Name (PodMeta po) =? SpecName (Spec Drone) then
    ret None
  else
    e <- clientDelete KPod pods setPods
           (Namespace (PodMeta po)) (Name (PodMeta po)) ;;
    match e with
    | Some err => ret (Some err)
    | None => ret None
    end.

Definition cleanupOwnedResources (Drone : Drone) : M Cluster (option error) :=
  r <- clientList KPod pods (Namespace (DroneMeta Drone)) (ownedBy Drone) ;;
  match r with
  | inl err => ret (Some err)
  | inr items => forRange items (cleanupBody Drone)
  end.

Definition Reconcile (req : Request) : M Cluster Outcome :=
  r <- clientGet KDrone drones (ReqNamespace req) (ReqName req) ;;
  match r with
  | inl err => ret (Return (IgnoreNotFound (Some err)))
  | inr Drone =>
      e <- cleanupOwnedResources Drone ;;
      match e with
      | Some err => ret (Return (Some err))
      | None =>
          r <- clientGet KPod pods
                 (Namespace (DroneMeta Drone)) (SpecName (Spec Drone)) ;;
          let err := errOf r in
          match r with
          | inl NotFound =>
              e <- clientCreate KPod pods setPods (buildPod Drone) ;;
              match e with
              | Some err => ret (Return (Some err))
              | None => ret (Return None)
              end
          | inl _ => ret (Return err)
          | inr pod =>
              (* [if r.Client.Status().Update(ctx, &Drone); err != nil]:
                 the condition reads the [err] of the pod lookup *)
              _ <- clientWrite KDrone drones setDrones VStatusUpdate mergeStatus
                     (withStatusName Drone (Name (PodMeta pod))) ;;
              match err with
              | Some _ => ret (Return err)
              | None => ret (Return None)
              end
          end
      end
  end.

(** A pod the pass is to delete: listed for the Drone, and not named as
    the Drone's spec says. *)
Definition stale (Drone : Drone) (po : Pod) : bool :=
  ownedBy Drone po && negb (Name (PodMeta po) =? SpecName (Spec Drone)).

Definition deleteCall (po : Pod) : Call :=
  mkCall VDelete KPod (Namespace (PodMeta po)) (Name (PodMeta po)) None.

End Named.

(** ** What the call log shows *)

(** The calls that change the store. *)
Definition isWrite (c : Call) : bool :=
  match verb c with
  | VGet | VList => false
  | VCreate | VUpdate | VStatusUpdate | VDelete => true
  end.

Definition writes (cs : list Call) : list Call := filter isWrite cs.

Definition hasVerb (v : Verb) (c : Call) : bool :=
  match v, verb c with
  | VGet, VGet | VList, VList | VCreate, VCreate | VUpdate, VUpdate
  | VStatusUpdate, VStatusUpdate | VDelete, VDelete => true
  | _, _ => false
  end.

Definition countVerb (v : Verb) (cs : list Call) : nat :=
  length (filter (hasVerb v) cs).

(** The schedule injects no fault into the next [n] calls. *)
Definition quiet (n : nat) (fs : list (option Fault)) : Prop :=
  forall i, (i < n)%nat -> nth i fs None = None.

(** A reconciliation terminates cleanly from [c]: it returns no error and
    leaves the store as it found it, with no write among its calls. *)
Definition terminatesCleanly {S : Type} (run : M S Outcome) (c : Client S) : Prop :=
  exists c', run c = (Return None, c')
             /\ store c' = store c
             /\ writes (calls c') = writes (calls c).

(** ** Garbage collection, in words of the store *)

Module GC.

(** An owned deployment that the pass is to delete: listed for the
    Drone, and not named like the canonical set. *)
Definition staleName (depl : Replica.Deployment) : bool :=
  negb (Name (Replica.DeploymentMeta depl) =? "mydrones").

Definition stale (Drone : Replica.Drone) (depl : Replica.Deployment) : bool :=
  Replica.ownedBy Drone depl && staleName depl.

Definition deleteCall (depl : Replica.Deployment) : Call :=
  mkCall VDelete KDeployment (Namespace (Replica.DeploymentMeta depl))
    (Name (Replica.DeploymentMeta depl)) None.

Definition sameKey (d x : Replica.Deployment) : bool :=
  hasKey (Namespace (Replica.DeploymentMeta x)) (Name (Replica.DeploymentMeta x)) d.

End GC.

(** ** The replica-counted reconciler after its garbage collection *)

Module Quiet.

(** What [Replica.Reconcile] does once the Drone is fetched and the
    garbage collection has left the deployments [D], on a store that
    answers every call: the branch taken, the cluster it leaves and the
    calls it adds to [cs]. *)
Definition converge (Drone : Replica.Drone) (dr : list Replica.Drone)
    (D : list Replica.Deployment) (cs : list Call)
    : Outcome * Client Replica.Cluster :=
  let ns := Namespace (Replica.DroneMeta Drone) in
  match lookup ns "mydrones" D with
  | None =>
      (Return None,
       mkClient (Replica.mkCluster dr (D ++ [Replica.buildDeployment Drone])) []
         (cs ++ [mkCall VGet KDeployment ns "mydrones" (Some NotFound);
                 mkCall VCreate KDeployment ns "mydrones" None]))
  | Some depl =>
      match Replica.Replicas (Replica.DSpec depl) with
      | None =>
          (Panic,
           mkClient (Replica.mkCluster dr D) []
             (cs ++ [mkCall VGet KDeployment ns "mydrones" None]))
      | Some replicas =>
          if negb (replicas =? Replica.expectedReplicas Drone)%Z then
            (Return None,
             mkClient
               (Replica.mkCluster dr
                  (replace
                     (Replica.withReplicas depl
                        (Some (Replica.expectedReplicas Drone))) D))
               []
               (cs ++ [mkCall VGet KDeployment ns "mydrones" None;
                       mkCall VUpdate KDeployment ns "mydrones" None]))
          else
            (Return None,
             mkClient
               (Replica.mkCluster
                  (replace
                     (Replica.withFlyingDrones Drone
                        (Replica.StatusReplicas (Replica.DStatus depl))) dr)
                  D)
               []
               (cs ++ [mkCall VGet KDeployment ns "mydrones" None;
                       mkCall VStatusUpdate KDrone ns
                         (Name (Replica.DroneMeta Drone)) None]))
      end
  end.

End Quiet.

(** ** Sample clusters *)

Definition objectMeta (ns name : string) : ObjectMeta :=
  mkObjectMeta name ns [] [].

Definition emptyReplica : Client Replica.Cluster :=
  mkClient (Replica.mkCluster [] []) [] [].

Definition emptyFleet : Client Fleet.Cluster :=
  mkClient (Fleet.mkCluster [] [] [] []) [] [].

(** A Swarm whose [spec.howmany] was never set, in a cluster without
    Drones. *)
Definition unsetSwarm : Fleet.Swarm :=
  Fleet.mkSwarm (objectMeta "default" "fleet") None 0.

Definition unsetSwarmFleet : Client Fleet.Cluster :=
  mkClient (Fleet.mkCluster [unsetSwarm] [] [] []) [] [].

(** Two drone-capable machines; the first one carries the pod of Drone
    [d1], the second one is free; Drone [d2] has no pod yet. *)
Definition droneNode (name : string) : Fleet.Node :=
  Fleet.mkNode
    (mkObjectMeta name "" [("node-role.kubernetes.io/drone", "drone")] []).

Definition firstNodeTaken : Client Fleet.Cluster :=
  mkClient
    (Fleet.mkCluster []
       [Fleet.mkDrone (objectMeta "default" "d1") true;
        Fleet.mkDrone (objectMeta "default" "d2") false]
       [Fleet.mkPod (objectMeta "default" "d1") "n1"
          [("kubernetes.io/hostname", "n1")] []]
       [droneNode "n1"; droneNode "n2"])
    [] [].

(** A Swarm of namespace [a] that wants no Drone, while the only Drone
    of the cluster lives in namespace [b]. *)
Definition foreignDrone : Client Fleet.Cluster :=
  mkClient
    (Fleet.mkCluster
       [Fleet.mkSwarm (objectMeta "a" "fleet") (Some 0%Z) 0]
       [Fleet.mkDrone (objectMeta "b" "d") false]
       [] [])
    [] [].

(** The same Swarm with one Drone of its own namespace, and a store that
    is unavailable for the third call. *)
Definition failingDelete : Client Fleet.Cluster :=
  mkClient
    (Fleet.mkCluster
       [Fleet.mkSwarm (objectMeta "a" "fleet") (Some 0%Z) 0]
       [Fleet.mkDrone (objectMeta "a" "d") false]
       [] [])
    [None; None; Some Unavailable] [].

(** A free machine for Drone [d2], and a conflict on the sixth call
    (the update of the Drone after the pod was created). *)
Definition failingPlacementUpdate : Client Fleet.Cluster :=
  mkClient
    (Fleet.mkCluster []
       [Fleet.mkDrone (objectMeta "default" "d2") false]
       []
       [droneNode "n1"])
    [None; None; None; None; None; Some Conflict] [].

(** A Drone of the replica-counted strategy and its canonical set. *)
Definition replicaDrone (howmany : option Z) (flying : Z) : Replica.Drone :=
  Replica.mkDrone (objectMeta "default" "d") (Replica.mkDroneSpec howmany)
    (Replica.mkDroneStatus flying).

Definition canonicalSet (replicas : option Z) (observed : Z) : Replica.Deployment :=
  Replica.withReplicas
    (Replica.mkDeployment
       (Replica.DeploymentMeta (Replica.buildDeployment (replicaDrone None 0)))
       (Replica.DSpec (Replica.buildDeployment (replicaDrone None 0)))
       (Replica.mkDeploymentStatus observed))
    replicas.

(** Counts agree (one replica declared, one desired, one observed), and
    the fourth call, the status update, meets a conflict. *)
Definition failingStatusUpdate : Client Replica.Cluster :=
  mkClient
    (Replica.mkCluster [replicaDrone (Some 1%Z) 0] [canonicalSet (Some 1%Z) 1])
    [None; None; None; Some Conflict] [].

(** A Drone without [spec.howmany] and no workload set yet. *)
Definition unsetDrone : Client Replica.Cluster :=
  mkClient (Replica.mkCluster [replicaDrone None 0] []) [] [].

(** A Drone owning the sets [a], [mydrones] and [c]. *)
Definition ownedSet (name : string) : Replica.Deployment :=
  Replica.mkDeployment
    (mkObjectMeta name "default" []
       [NewControllerRef (Replica.DroneMeta (replicaDrone (Some 2%Z) 0))])
    (Replica.DSpec (canonicalSet (Some 5%Z) 5))
    (Replica.mkDeploymentStatus 5).

Definition threeOwned : Client Replica.Cluster :=
  mkClient
    (Replica.mkCluster [replicaDrone (Some 2%Z) 0]
       [ownedSet "a"; ownedSet "mydrones"; ownedSet "c"])
    [] [].

(** The same cluster with a store that fails the second delete. *)
Definition threeOwnedFailing : Client Replica.Cluster :=
  mkClient (store threeOwned) [None; None; Some Conflict] [].

(** Counts agree and the status is in step: a cluster at rest. *)
Definition atRest : Client Replica.Cluster :=
  mkClient
    (Replica.mkCluster [replicaDrone (Some 1%Z) 1] [canonicalSet (Some 1%Z) 1])
    [] [].

(** A Swarm of namespace [a] that wants two Drones, in a cluster with
    one Drone in [a] and one in [b]. *)
Definition twoNamespaces : Client Fleet.Cluster :=
  mkClient
    (Fleet.mkCluster
       [Fleet.mkSwarm (objectMeta "a" "fleet") (Some 2%Z) 0]
       [Fleet.mkDrone (objectMeta "a" "x") false;
        Fleet.mkDrone (objectMeta "b" "y") false]
       [] [])
    [] [].

(** Drone [d2] without a pod, in a cluster whose only drone-capable
    machine is free; the second cluster has no such machine. *)
Definition freeNode : Client Fleet.Cluster :=
  mkClient
    (Fleet.mkCluster []
       [Fleet.mkDrone (objectMeta "default" "d2") false]
       []
       [droneNode "n1"])
    [] [].

Definition noNode : Client Fleet.Cluster :=
  mkClient
    (Fleet.mkCluster []
       [Fleet.mkDrone (objectMeta "default" "d2") true]
       []
       [Fleet.mkNode (objectMeta "" "plain")])
    [] [].

(** Swarms of namespace [a]: one with a negative desired count and no
    Drone; one that wants three Drones and has none; one that wants
    three and whose next generated name is taken; one that wants a
    single Drone and has four. *)
Definition swarmOf (howmany : option Z) (names : list string)
    : Client Fleet.Cluster :=
  mkClient
    (Fleet.mkCluster
       [Fleet.mkSwarm (objectMeta "a" "fleet") howmany 0]
       (map (fun n => Fleet.mkDrone (objectMeta "a" n) false) names)
       [] [])
    [] [].

Definition negativeSwarm : Client Fleet.Cluster := swarmOf (Some (-1)%Z) [].

Definition wantsThree : Client Fleet.Cluster := swarmOf (Some 3%Z) [].

Definition nameTaken : Client Fleet.Cluster := swarmOf (Some 3%Z) ["busy-bee"].

Definition fourForOne : Client Fleet.Cluster :=
  swarmOf (Some 1%Z) ["d1"; "d2"; "d3"; "d4"].

(** A canonical set that declares no replica count. *)
Definition undeclaredSet : Client Replica.Cluster :=
  mkClient
    (Replica.mkCluster [replicaDrone (Some 1%Z) 0] [canonicalSet None 0])
    [] [].

(** A Drone that wants five replicas and has no workload set; a Drone
    whose set declares and runs three replicas, as desired. *)
Definition wantsFive : Client Replica.Cluster :=
  mkClient (Replica.mkCluster [replicaDrone (Some 5%Z) 0] []) [] [].

Definition threeRunning : Client Replica.Cluster :=
  mkClient
    (Replica.mkCluster [replicaDrone (Some 3%Z) 0] [canonicalSet (Some 3%Z) 3])
    [] [].

(** What a reconciliation that returned nil may have seen fail: a
    lookup that found nothing, or the update of the Drone's status. *)
Definition tolerated (call : Call) : Prop :=
  result call = None
  \/ (verb call = VGet /\ result call = Some NotFound)
  \/ verb call = VStatusUpdate.

(** A Drone of the named-pod strategy, renamed from [old] to [new]
    while the pod built under the old name is still there; and the same
    Drone with its pod in place and a store that meets a conflict on the
    fourth call, the status update. *)
Definition namedDrone (podName : string) : Named.Drone :=
  Named.mkDrone (objectMeta "default" "d") (Named.mkDroneSpec podName)
    (Named.mkDroneStatus "").

Definition renamed : Client Named.Cluster :=
  mkClient
    (Named.mkCluster [namedDrone "new"] [Named.buildPod (namedDrone "old")])
    [] [].

Definition namedInPlace : Client Named.Cluster :=
  mkClient
    (Named.mkCluster [namedDrone "new"] [Named.buildPod (namedDrone "new")])
    [None; None; None; Some Conflict] [].

(** * Properties *)

(** ** Keyed collections *)

Section KeyedFacts.
Context {A : Type} `{KObject A}.

Lemma hasKey_self (x : A) :
  hasKey (Namespace (meta x)) (Name (meta x)) x = true.
Proof.
  unfold hasKey. now rewrite !String.eqb_refl.
Qed.

Lemma hasKey_true (ns name : string) (x : A) :
  hasKey ns name x = true -> Namespace (meta x) = ns /\ Name (meta x) = name.
Proof.
  unfold hasKey. intros E. apply andb_true_iff in E as [E1 E2].
  now apply String.eqb_eq in E1, E2.
Qed.

Lemma lookup_key (ns name : string) (l : list A) (x : A) :
  lookup ns name l = Some x ->
  In x l /\ Namespace (meta x) = ns /\ Name (meta x) = name.
Proof.
  unfold lookup. intros E. apply find_some in E as [I K].
  split; [exact I | now apply hasKey_true].
Qed.

Lemma lookup_In (l : list A) (x : A) :
  In x l -> lookup (Namespace (meta x)) (Name (meta x)) l <> None.
Proof.
  unfold lookup. intros I E.
  apply (find_none _ _ E) in I. now rewrite hasKey_self in I.
Qed.

Lemma lookup_filter (p : A -> bool) (ns name : string) (l : list A) (x : A) :
  lookup ns name l = Some x -> p x = true ->
  lookup ns name (filter p l) = Some x.
Proof.
  unfold lookup. induction l as [|y l IH]; simpl; [discriminate|].
  destruct (hasKey ns name y) eqn:K.
  - intros [= ->] P. rewrite P. simpl. now rewrite K.
  - intros E P. destruct (p y); simpl; [rewrite K|]; auto.
Qed.

Lemma lookup_filter_none (p : A -> bool) (ns name : string) (l : list A) :
  lookup ns name l = None -> lookup ns name (filter p l) = None.
Proof.
  unfold lookup. induction l as [|y l IH]; simpl; [reflexivity|].
  destruct (hasKey ns name y) eqn:K; [discriminate|].
  intros E. destruct (p y); simpl; [rewrite K|]; auto.
Qed.

Lemma lookup_app_new (ns name : string) (l : list A) (x : A) :
  lookup ns name l = None -> hasKey ns name x = true ->
  lookup ns name (l ++ [x]) = Some x.
Proof.
  unfold lookup. induction l as [|y l IH]; simpl.
  - intros _ ->. reflexivity.
  - destruct (hasKey ns name y); [discriminate | auto].
Qed.

Lemma lookup_replace (ns name : string) (l : list A) (old new : A) :
  lookup ns name l = Some old ->
  Namespace (meta new) = ns -> Name (meta new) = name ->
  lookup ns name (replace new l) = Some new.
Proof.
  intros E <- <-. revert E. unfold lookup.
  induction l as [|y l IH]; simpl; [discriminate|].
  destruct (hasKey _ _ y) eqn:K; simpl.
  - intros _. now rewrite hasKey_self.
  - rewrite K. auto.
Qed.

Lemma length_replace (y : A) (l : list A) :
  length (replace y l) = length l.
Proof.
  induction l as [|x l IH]; simpl; [reflexivity|].
  destruct (hasKey _ _ x); simpl; congruence.
Qed.

Lemma In_replace (y z : A) (l : list A) :
  In z (replace y l) -> z = y \/ In z l.
Proof.
  induction l as [|x l IH]; simpl; [tauto|].
  destruct (hasKey _ _ x); simpl; intuition auto.
Qed.

(** In a collection with unique keys an object is determined by its key. *)
Lemma uniqueKeys_eq (l : list A) (x y : A) :
  uniqueKeys l -> In x l -> In y l ->
  Namespace (meta x) = Namespace (meta y) -> Name (meta x) = Name (meta y) ->
  x = y.
Proof.
  unfold uniqueKeys, keys. induction l as [|z l IH]; simpl; [tauto|].
  intros U Ix Iy En Em. inversion U as [|? ? N U']; subst.
  destruct Ix as [->|Ix], Iy as [->|Iy]; auto.
  - exfalso. apply N. rewrite En, Em.
    now apply (in_map (fun x => (Namespace (meta x), Name (meta x)))).
  - exfalso. apply N. rewrite <- En, <- Em.
    now apply (in_map (fun x => (Namespace (meta x), Name (meta x)))).
Qed.

Lemma uniqueKeys_filter (p : A -> bool) (l : list A) :
  uniqueKeys l -> uniqueKeys (filter p l).
Proof.
  unfold uniqueKeys, keys. induction l as [|z l IH]; simpl; [auto|].
  intros U. inversion U as [|? ? N U']; subst.
  destruct (p z); simpl; auto. constructor; auto.
  intros I. apply N. apply in_map_iff in I as (y & E & I).
  apply filter_In in I as [I _]. rewrite <- E.
  now apply (in_map (fun x => (Namespace (meta x), Name (meta x)))).
Qed.
End KeyedFacts.

(** ** Calls on a quiet schedule *)

Lemma quiet_nil (n : nat) : quiet n [].
Proof.
  intros i _. now destruct i.
Qed.

Lemma quiet_cons (n : nat) (f : option Fault) (fs : list (option Fault)) :
  quiet (S n) (f :: fs) -> f = None /\ quiet n fs.
Proof.
  intros Q. split.
  - apply (Q 0%nat). lia.
  - intros i L. apply (Q (S i)). lia.
Qed.

Section OperationFacts.
Context {S A : Type} `{KObject A}.
Variable k : Kind.
Variable proj : S -> list A.
Variable inj : list A -> S -> S.

(** A call that the schedule lets through answers from the store. *)
Lemma clientGet_quiet (ns name : string) (c : Client S) :
  quiet 1 (faults c) ->
  let r := match lookup ns name (proj (store c)) with
           | Some x => inr x
           | None => inl NotFound
           end in
  clientGet k proj ns name c =
  (r, mkClient (store c) (tl (faults c))
        (calls c ++ [mkCall VGet k ns name (errOf r)])).
Proof.
  destruct c as [s fs cs]. simpl. intros Q.
  destruct fs as [|f fs]; [reflexivity|].
  apply quiet_cons in Q as [-> _]. reflexivity.
Qed.

Lemma clientList_quiet (ns : string) (sel : A -> bool) (c : Client S) :
  quiet 1 (faults c) ->
  clientList k proj ns sel c =
  (inr (filter sel (proj (store c))),
   mkClient (store c) (tl (faults c)) (calls c ++ [mkCall VList k ns "" None])).
Proof.
  destruct c as [s fs cs]. simpl. intros Q.
  destruct fs as [|f fs]; [reflexivity|].
  apply quiet_cons in Q as [-> _]. reflexivity.
Qed.

Lemma clientDelete_quiet (ns name : string) (c : Client S) (x : A) :
  quiet 1 (faults c) ->
  lookup ns name (proj (store c)) = Some x ->
  clientDelete k proj inj ns name c =
  (None, mkClient (inj (remove ns name (proj (store c))) (store c))
           (tl (faults c)) (calls c ++ [mkCall VDelete k ns name None])).
Proof.
  destruct c as [s fs cs]. simpl. intros Q E.
  destruct fs as [|f fs].
  - unfold clientDelete, bind, nextFault, getStore; simpl. now rewrite E.
  - apply quiet_cons in Q as [-> _].
    unfold clientDelete, bind, nextFault, getStore; simpl. now rewrite E.
Qed.

Lemma clientCreate_quiet (x : A) (c : Client S) :
  quiet 1 (faults c) ->
  lookup (Namespace (meta x)) (Name (meta x)) (proj (store c)) = None ->
  clientCreate k proj inj x c =
  (None, mkClient (inj (proj (store c) ++ [x]) (store c))
           (tl (faults c))
           (calls c ++ [mkCall VCreate k (Namespace (meta x)) (Name (meta x)) None])).
Proof.
  destruct c as [s fs cs]. simpl. intros Q E.
  destruct fs as [|f fs].
  - unfold clientCreate, bind, nextFault, getStore; simpl. now rewrite E.
  - apply quiet_cons in Q as [-> _].
    unfold clientCreate, bind, nextFault, getStore; simpl. now rewrite E.
Qed.

Lemma clientWrite_quiet (v : Verb) (merge : A -> A -> A) (x old : A) (c : Client S) :
  quiet 1 (faults c) ->
  lookup (Namespace (meta x)) (Name (meta x)) (proj (store c)) = Some old ->
  clientWrite k proj inj v merge x c =
  (None, mkClient (inj (replace (merge old x) (proj (store c))) (store c))
           (tl (faults c))
           (calls c ++ [mkCall v k (Namespace (meta x)) (Name (meta x)) None])).
Proof.
  destruct c as [s fs cs]. simpl. intros Q E.
  destruct fs as [|f fs].
  - unfold clientWrite, bind, nextFault, getStore; simpl. now rewrite E.
  - apply quiet_cons in Q as [-> _].
    unfold clientWrite, bind, nextFault, getStore; simpl. now rewrite E.
Qed.
End OperationFacts.

(** ** Reads leave the store alone *)

Section ReadFacts.
Context {S A : Type} `{KObject A}.
Variable k : Kind.
Variable proj : S -> list A.

Lemma clientGet_frame (ns name : string) (c c' : Client S) (r : error + A) :
  clientGet k proj ns name c = (r, c') ->
  store c' = store c
  /\ calls c' = calls c ++ [mkCall VGet k ns name (errOf r)].
Proof.
  destruct c as [s fs cs].
  unfold clientGet, bind, nextFault, getStore, logCall, ret; simpl.
  destruct fs as [|f fs]; simpl; intros [= <- <-]; auto.
Qed.

Lemma clientGet_found (ns name : string) (c c' : Client S) (x : A) :
  clientGet k proj ns name c = (inr x, c') ->
  lookup ns name (proj (store c)) = Some x.
Proof.
  destruct c as [s fs cs].
  unfold clientGet, bind, nextFault, getStore, logCall, ret; simpl.
  destruct fs as [|[f|] fs]; simpl;
    destruct (lookup ns name (proj s)); intros [= <- <-]; auto.
Qed.

Lemma clientList_frame (ns : string) (sel : A -> bool) (c c' : Client S)
    (r : error + list A) :
  clientList k proj ns sel c = (r, c') ->
  store c' = store c
  /\ calls c' = calls c ++ [mkCall VList k ns "" (errOf r)].
Proof.
  destruct c as [s fs cs].
  unfold clientList, bind, nextFault, getStore, logCall, ret; simpl.
  destruct fs as [|f fs]; simpl; intros [= <- <-]; auto.
Qed.

Lemma clientList_items (ns : string) (sel : A -> bool) (c c' : Client S)
    (items : list A) :
  clientList k proj ns sel c = (inr items, c') ->
  items = filter sel (proj (store c)).
Proof.
  destruct c as [s fs cs].
  unfold clientList, bind, nextFault, getStore, logCall, ret; simpl.
  destruct fs as [|[f|] fs]; simpl; intros [= <- <-]; auto.
Qed.
End ReadFacts.

Lemma writes_app (cs cs' : list Call) :
  writes (cs ++ cs') = writes cs ++ writes cs'.
Proof.
  apply filter_app.
Qed.

(** A reconciler that only issued its primary [Get], and got an error
    that [IgnoreNotFound] swallows, terminated cleanly. *)
Lemma primary_fetch_only {S A : Type} `{KObject A} (k : Kind) (proj : S -> list A)
    (ns name : string) (c : Client S) :
  fst (clientGet k proj ns name c) = inl NotFound ->
  exists c', clientGet k proj ns name c = (inl NotFound, c')
             /\ store c' = store c
             /\ writes (calls c') = writes (calls c).
Proof.
  destruct (clientGet k proj ns name c) as [r c'] eqn:E. simpl. intros ->.
  exists c'. destruct (clientGet_frame _ _ _ _ _ _ _ E) as [Es Ec].
  rewrite Ec, writes_app. simpl. rewrite app_nil_r. auto.
Qed.

(** C8: when the primary fetch of the Drone (either strategy) or of the
    Swarm reports not-found, the reconciler returns a nil error and
    issues no create, update or delete: the store is as it was. *)
Theorem primary_not_found_terminates_cleanly
    (req : Request) (randomName : string)
    (cr : Client Replica.Cluster) (cd cs : Client Fleet.Cluster) :
  fst (clientGet KDrone Replica.drones (ReqNamespace req) (ReqName req) cr)
    = inl NotFound ->
  fst (clientGet KDrone Fleet.drones (ReqNamespace req) (ReqName req) cd)
    = inl NotFound ->
  fst (clientGet KSwarm Fleet.swarms (ReqNamespace req) (ReqName req) cs)
    = inl NotFound ->
  terminatesCleanly (Replica.Reconcile req) cr
  /\ terminatesCleanly (Fleet.DroneReconciler.Reconcile req) cd
  /\ terminatesCleanly (Fleet.SwarmReconciler.Reconcile randomName req) cs.
Proof.
  intros Hr Hd Hs.
  apply primary_fetch_only in Hr as (cr' & Er & Fr).
  apply primary_fetch_only in Hd as (cd' & Ed & Fd).
  apply primary_fetch_only in Hs as (cs' & Es & Fs).
  repeat split.
  - exists cr'. split; [|exact Fr].
    unfold Replica.Reconcile, bind. now rewrite Er.
  - exists cd'. split; [|exact Fd].
    unfold Fleet.DroneReconciler.Reconcile, bind. now rewrite Ed.
  - exists cs'. split; [|exact Fs].
    unfold Fleet.SwarmReconciler.Reconcile, bind. now rewrite Es.
Qed.

Lemma primary_not_found_witness :
  terminatesCleanly (Replica.Reconcile (mkRequest "default" "gone")) emptyReplica
  /\ terminatesCleanly
       (Fleet.DroneReconciler.Reconcile (mkRequest "default" "gone")) emptyFleet
  /\ terminatesCleanly
       (Fleet.SwarmReconciler.Reconcile "busy_bee" (mkRequest "default" "gone"))
       emptyFleet.
Proof.
  apply (primary_not_found_terminates_cleanly (mkRequest "default" "gone")
           "busy_bee" emptyReplica emptyFleet emptyFleet); reflexivity.
Defined.

(** C10: the Swarm reconciler reads [*swarm.Spec.HowMany] without a
    guard.  Whenever the fetch returned a Swarm whose desired count is
    unset and the listing of the Drones succeeded, the invocation panics
    at the comparison; nothing has been written by then. *)
Theorem swarm_unset_count_panics
    (randomName : string) (req : Request) (c c1 c2 : Client Fleet.Cluster)
    (swarm : Fleet.Swarm) (items : list Fleet.Drone) :
  clientGet KSwarm Fleet.swarms (ReqNamespace req) (ReqName req) c
    = (inr swarm, c1) ->
  clientList KDrone Fleet.drones "" (fun _ => true) c1 = (inr items, c2) ->
  Fleet.HowMany swarm = None ->
  Fleet.SwarmReconciler.Reconcile randomName req c = (Panic, c2)
  /\ store c2 = store c
  /\ writes (calls c2) = writes (calls c).
Proof.
  intros G L U. split.
  - unfold Fleet.SwarmReconciler.Reconcile, bind. now rewrite G, L, U.
  - apply clientGet_frame in G as [Gs Gc]. apply clientList_frame in L as [Ls Lc].
    split; [congruence|].
    rewrite Lc, Gc, !writes_app. simpl. now rewrite !app_nil_r.
Qed.

Lemma swarm_unset_count_witness :
  exists c2,
    Fleet.SwarmReconciler.Reconcile "busy_bee" (mkRequest "default" "fleet")
      unsetSwarmFleet = (Panic, c2)
    /\ store c2 = store unsetSwarmFleet
    /\ writes (calls c2) = writes (calls unsetSwarmFleet).
Proof.
  eexists.
  eapply (swarm_unset_count_panics "busy_bee" (mkRequest "default" "fleet")
            unsetSwarmFleet _ _ unsetSwarm []);
    [vm_compute; reflexivity | vm_compute; reflexivity | reflexivity].
Defined.

(** ** Placement (pod-per-node strategy) *)

(** Both branches of the loop body return from [Reconcile]. *)
Lemma placeBody_returns (Drone : Fleet.Drone) (err : option error)
    (occupied : list string) (node : Fleet.Node) (c : Client Fleet.Cluster) :
  exists out, fst (Fleet.DroneReconciler.placeBody Drone err occupied node c)
              = Some out.
Proof.
  unfold Fleet.DroneReconciler.placeBody, bind.
  destruct (negb _).
  - destruct (clientCreate _ _ _ _ c) as [[e|] c1]; simpl; [eauto|].
    destruct (clientUpdate _ _ _ _ c1) as [u c2].
    destruct err; simpl; eauto.
  - destruct (clientUpdate _ _ _ _ c) as [u c2].
    destruct err; simpl; eauto.
Qed.

(** Hence only the first listed machine is ever examined. *)
Lemma placement_examines_first_only (Drone : Fleet.Drone) (err : option error)
    (occupied : list string) (node : Fleet.Node) (rest : list Fleet.Node)
    (c : Client Fleet.Cluster) :
  forRange (node :: rest) (Fleet.DroneReconciler.placeBody Drone err occupied) c
  = forRange [node] (Fleet.DroneReconciler.placeBody Drone err occupied) c.
Proof.
  simpl. unfold bind.
  destruct (placeBody_returns Drone err occupied node c) as [out E].
  destruct (Fleet.DroneReconciler.placeBody Drone err occupied node c) as [r c'].
  simpl in E. now subst r.
Qed.

(** C1, at the failing input: machines [n1] and [n2] are eligible, only
    [n1] is occupied.  The reconciliation of [d2] does not place it on
    the free machine [n2]: it creates no pod and records [Flying = false]. *)
Theorem placement_misses_free_machine :
  map (fun n => Name (Fleet.NodeMeta n)) (Fleet.nodes (store firstNodeTaken))
    = ["n1"; "n2"]
  /\ map Fleet.NodeName (Fleet.pods (store firstNodeTaken)) = ["n1"]
  /\ exists c',
       Fleet.DroneReconciler.Reconcile (mkRequest "default" "d2") firstNodeTaken
         = (Return (Some NotFound), c')
       /\ Fleet.pods (store c') = Fleet.pods (store firstNodeTaken)
       /\ lookup "default" "d2" (Fleet.drones (store c'))
          = Some (Fleet.mkDrone (objectMeta "default" "d2") false)
       /\ countVerb VCreate (calls c') = 0%nat.
Proof.
  split; [reflexivity|]. split; [reflexivity|].
  eexists. split; [vm_compute; reflexivity|].
  repeat split.
Qed.

(** ** Swarm scale-down *)

(** C3, at the failing input: the listing is cluster-wide, the delete is
    addressed to the request's namespace.  With one Drone too many, the
    first (and only) Drone of the listing survives the invocation. *)
Theorem scale_down_misses_first_listed :
  exists c',
    Fleet.SwarmReconciler.Reconcile "busy_bee" (mkRequest "a" "fleet") foreignDrone
      = (Return None, c')
    /\ Fleet.drones (store c') = Fleet.drones (store foreignDrone)
    /\ writes (calls c')
       = [mkCall VDelete KDrone "a" "d" (Some NotFound);
          mkCall VUpdate KSwarm "a" "fleet" None].
Proof.
  eexists. split; [vm_compute; reflexivity|].
  split; reflexivity.
Qed.

(** ** Failed writes *)

(** C4, at failing inputs: a status update that meets a conflict once
    the replica counts agree, and a Drone deletion that finds the store
    unavailable during scale-down, both end in a nil error; after a
    placement, the error returned is the not-found of the pod lookup
    whether the update of the Drone failed or not. *)
Theorem failed_writes_are_dropped :
  (exists c',
     Replica.Reconcile (mkRequest "default" "d") failingStatusUpdate
       = (Return None, c')
     /\ writes (calls c')
        = [mkCall VStatusUpdate KDrone "default" "d" (Some (Transient Conflict))])
  /\ (exists c',
        Fleet.SwarmReconciler.Reconcile "busy_bee" (mkRequest "a" "fleet")
          failingDelete = (Return None, c')
        /\ writes (calls c')
           = [mkCall VDelete KDrone "a" "d" (Some (Transient Unavailable));
              mkCall VUpdate KSwarm "a" "fleet" None])
  /\ (exists c',
        Fleet.DroneReconciler.Reconcile (mkRequest "default" "d2")
          failingPlacementUpdate = (Return (Some NotFound), c')
        /\ writes (calls c')
           = [mkCall VCreate KPod "default" "d2" None;
              mkCall VUpdate KDrone "default" "d2" (Some (Transient Conflict))]).
Proof.
  repeat split; eexists; (split; [vm_compute; reflexivity | reflexivity]).
Qed.

(** ** Creation of the workload set *)

(** What [buildDeployment] declares: the Drone's [HowMany] as it is. *)
Lemma buildDeployment_replicas (Drone : Replica.Drone) :
  Replica.Replicas (Replica.DSpec (Replica.buildDeployment Drone))
  = Replica.HowMany (Replica.Spec Drone)
  /\ OwnerReferences (Replica.DeploymentMeta (Replica.buildDeployment Drone))
     = [NewControllerRef (Replica.DroneMeta Drone)].
Proof.
  split; reflexivity.
Qed.

(** C5, at the failing input: for a Drone without [spec.howmany] the
    set is created with no declared replica count, not with 1. *)
Theorem created_set_has_no_default :
  exists c' set,
    Replica.Reconcile (mkRequest "default" "d") unsetDrone = (Return None, c')
    /\ writes (calls c') = [mkCall VCreate KDeployment "default" "mydrones" None]
    /\ lookup "default" "mydrones" (Replica.deployments (store c')) = Some set
    /\ Replica.Replicas (Replica.DSpec set) = None.
Proof.
  eexists. eexists. split; [vm_compute; reflexivity|].
  repeat split.
Qed.

(** ** Garbage collection *)

Lemma clientDelete_log {S A : Type} `{KObject A} (k : Kind) (proj : S -> list A)
    (inj : list A -> S -> S) (ns name : string) (c c' : Client S)
    (e : option error) :
  clientDelete k proj inj ns name c = (e, c') ->
  calls c' = calls c ++ [mkCall VDelete k ns name e].
Proof.
  destruct c as [s fs cs].
  unfold clientDelete, bind, nextFault, getStore, setStore, logCall, ret; simpl.
  destruct fs as [|[f|] fs]; simpl;
    try destruct (lookup ns name (proj s)); intros [= <- <-]; reflexivity.
Qed.

Lemma filter_all {A : Type} (p : A -> bool) (l : list A) :
  (forall x, In x l -> p x = true) -> filter p l = l.
Proof.
  induction l as [|x l IH]; simpl; intros P; [reflexivity|].
  rewrite (P x) by auto. f_equal. auto.
Qed.

Lemma filter_filter {A : Type} (p q : A -> bool) (l : list A) :
  filter p (filter q l) = filter (fun x => q x && p x) l.
Proof.
  induction l as [|x l IH]; simpl; [reflexivity|].
  destruct (q x); simpl; [destruct (p x)|]; congruence.
Qed.

(** The loop of [cleanupOwnedResources] on a quiet store: every listed
    item that is not the canonical set is deleted, in listing order. *)
Lemma cleanup_loop_quiet (items : list Replica.Deployment) :
  forall (dr : list Replica.Drone) (D : list Replica.Deployment) (cs : list Call),
  NoDup (keys items) ->
  (forall x, In x items -> In x D) ->
  forRange items Replica.cleanupBody (mkClient (Replica.mkCluster dr D) [] cs)
  = (None,
     mkClient
       (Replica.mkCluster dr
          (filter (fun d => negb (existsb (GC.sameKey d) (filter GC.staleName items))) D))
       []
       (cs ++ map GC.deleteCall (filter GC.staleName items))).
Proof.
  induction items as [|x items IH]; intros dr D cs U Sub.
  - simpl. rewrite app_nil_r. rewrite filter_all; auto.
  - inversion U as [|? ? N U']; subst.
    cbn [forRange]. unfold bind at 1. unfold Replica.cleanupBody at 1.
    cbn [filter].
    change (GC.staleName x)
      with (negb (Name (Replica.DeploymentMeta x) =? "mydrones")).
    destruct (Name (Replica.DeploymentMeta x) =? "mydrones") eqn:E; cbn [negb].
    + unfold ret at 1. apply IH; auto. intros y I. apply Sub. now right.
    + destruct (lookup (Namespace (Replica.DeploymentMeta x))
                  (Name (Replica.DeploymentMeta x)) D) as [y|] eqn:L.
      2:{ exfalso. apply (lookup_In D x); [apply Sub; now left | exact L]. }
      unfold bind.
      rewrite clientDelete_quiet with (x := y); [|apply quiet_nil|exact L].
      cbn [store faults calls tl Replica.setDeployments Replica.deployments
           Replica.drones].
      unfold ret at 1, Replica.setDeployments. cbn [Replica.drones].
      rewrite IH; auto.
      * f_equal. f_equal.
        -- f_equal. unfold remove. rewrite filter_filter.
           apply filter_ext. intros d. cbn [existsb map].
           unfold GC.sameKey at 2. simpl meta.
           now rewrite negb_orb.
        -- rewrite <- app_assoc. reflexivity.
      * intros z I. unfold remove. apply filter_In. split.
        -- apply Sub. now right.
        -- apply negb_true_iff. apply not_true_iff_false. intros K.
           apply hasKey_true in K as [K1 K2]. apply N.
           simpl meta in K1, K2. rewrite <- K1, <- K2.
           unfold keys. apply in_map_iff. exists z. split; [reflexivity|exact I].
Qed.

(** With unique keys, "shares its key with a listed stale item" is
    "is stale". *)
Lemma stale_by_key (Drone : Replica.Drone) (D : list Replica.Deployment) :
  uniqueKeys D ->
  forall d, In d D ->
  existsb (GC.sameKey d) (filter GC.staleName (filter (Replica.ownedBy Drone) D))
  = GC.stale Drone d.
Proof.
  intros U d I. unfold GC.stale.
  destruct (Replica.ownedBy Drone d && GC.staleName d) eqn:E.
  - apply andb_true_iff in E as [O N]. apply existsb_exists.
    exists d. split; [|exact (@hasKey_self _ Replica.Deployment_KObject d)].
    apply filter_In. split; [apply filter_In|]; auto.
  - apply not_true_iff_false. intros X. apply existsb_exists in X as (x & Ix & K).
    apply filter_In in Ix as [Ix Nx]. apply filter_In in Ix as [Ix Ox].
    unfold GC.sameKey in K.
    apply hasKey_true in K as [K1 K2]. simpl meta in K1, K2.
    assert (d = x) as -> by (apply (uniqueKeys_eq D); auto).
    rewrite Ox, Nx in E. discriminate.
Qed.

(** One pass on a quiet store with unique keys. *)
Lemma cleanup_quiet (Drone : Replica.Drone) (dr : list Replica.Drone)
    (D : list Replica.Deployment) (cs : list Call) :
  uniqueKeys D ->
  Replica.cleanupOwnedResources Drone (mkClient (Replica.mkCluster dr D) [] cs)
  = (None,
     mkClient
       (Replica.mkCluster dr (filter (fun d => negb (GC.stale Drone d)) D))
       []
       (cs ++ mkCall VList KDeployment (Namespace (Replica.DroneMeta Drone)) "" None
           :: map GC.deleteCall (filter (GC.stale Drone) D))).
Proof.
  intros U. unfold Replica.cleanupOwnedResources, bind.
  rewrite clientList_quiet by apply quiet_nil.
  cbn [store faults calls tl Replica.deployments].
  rewrite cleanup_loop_quiet.
  - f_equal. f_equal.
    + f_equal. apply filter_ext_in. intros d I.
      now rewrite (stale_by_key Drone D U d I).
    + rewrite <- app_assoc. cbn [app]. do 3 f_equal.
      rewrite filter_filter. reflexivity.
  - apply (uniqueKeys_filter _ D U).
  - intros x I. now apply filter_In in I.
Qed.

(** The loop on any schedule: a delete that fails is the last call, and
    its error is what the loop returns. *)
Lemma cleanup_loop_abort (items : list Replica.Deployment) :
  forall (c c' : Client Replica.Cluster) (r : option error),
  forRange items Replica.cleanupBody c = (r, c') ->
  exists new,
    calls c' = calls c ++ new
    /\ forall pre call post,
         new = pre ++ call :: post -> result call <> None ->
         r = result call /\ post = [].
Proof.
  induction items as [|x items IH]; intros c c' r.
  - simpl. intros [= <- <-]. exists []. split; [now rewrite app_nil_r|].
    intros [|? ?] ? ? E; discriminate.
  - cbn [forRange]. unfold bind at 1. unfold Replica.cleanupBody at 1.
    destruct (Name (Replica.DeploymentMeta x) =? "mydrones").
    + unfold ret at 1. apply IH.
    + unfold bind at 1.
      destruct (clientDelete _ _ _ _ _ c) as [e c1] eqn:Del.
      apply clientDelete_log in Del.
      destruct e as [err|]; unfold ret at 1.
      * intros [= <- <-]. eexists. split; [exact Del|].
        intros [|? [|? ?]] call post E; try discriminate.
        injection E as <- <-. auto.
      * intros Run. apply IH in Run as (new & Ec & Hn).
        eexists. split; [rewrite Ec, Del, <- app_assoc; reflexivity|].
        intros [|? pre] call post E F.
        -- injection E as <- _. now elim F.
        -- injection E as _ E. eapply Hn; eauto.
Qed.

(** C7: one pass of [cleanupOwnedResources].  On a store that answers
    every call and holds one deployment per key, the pass returns nil,
    deletes exactly the deployments listed for the Drone that are not
    named like the canonical set, and leaves every other deployment, and
    the Drones, as they were.  On any store, a delete that fails ends the
    pass: no call follows it, and its error is the one returned. *)
Theorem garbage_collection_pass
    (Drone : Replica.Drone) (c c' d d' : Client Replica.Cluster)
    (r r' : option error) :
  faults c = [] ->
  uniqueKeys (Replica.deployments (store c)) ->
  Replica.cleanupOwnedResources Drone c = (r, c') ->
  Replica.cleanupOwnedResources Drone d = (r', d') ->
  (r = None
   /\ Replica.deployments (store c')
      = filter (fun x => negb (GC.stale Drone x)) (Replica.deployments (store c))
   /\ Replica.drones (store c') = Replica.drones (store c)
   /\ writes (calls c')
      = writes (calls c)
        ++ map GC.deleteCall (filter (GC.stale Drone) (Replica.deployments (store c))))
  /\ (exists new,
        calls d' = calls d ++ new
        /\ forall pre call post,
             new = pre ++ call :: post ->
             verb call = VDelete -> result call <> None ->
             r' = result call /\ post = []).
Proof.
  intros F U Run Run'. split.
  - destruct c as [[dr D] fs cs]. simpl in F, U. subst fs.
    rewrite (cleanup_quiet Drone dr D cs U) in Run.
    injection Run as <- <-. cbn [store calls Replica.deployments Replica.drones].
    repeat split. rewrite writes_app. f_equal. cbn.
    apply filter_all. intros x I. apply in_map_iff in I as (y & <- & _).
    reflexivity.
  - revert Run'. unfold Replica.cleanupOwnedResources, bind.
    destruct (clientList _ _ _ _ d) as [l d1] eqn:L.
    apply clientList_frame in L as [_ Lc].
    destruct l as [err|items].
    + unfold ret. intros [= <- <-]. eexists. split; [exact Lc|].
      intros [|? [|? ?]] call post E V; try discriminate.
      injection E as <- _. discriminate.
    + intros Run'. apply cleanup_loop_abort in Run' as (new & Ec & Hn).
      eexists. split; [rewrite Ec, Lc, <- app_assoc; reflexivity|].
      intros [|? pre] call post E V X.
      * injection E as <- _. discriminate.
      * injection E as _ E. eapply Hn; eauto.
Qed.

Lemma threeOwned_uniqueKeys : uniqueKeys (Replica.deployments (store threeOwned)).
Proof.
  unfold uniqueKeys. cbn.
  repeat constructor; cbn; intuition discriminate.
Qed.

Lemma garbage_collection_witness :
  let Drone := replicaDrone (Some 2%Z) 0 in
  let run := Replica.cleanupOwnedResources Drone threeOwned in
  let run' := Replica.cleanupOwnedResources Drone threeOwnedFailing in
  (map (fun x => Name (Replica.DeploymentMeta x))
     (Replica.deployments (store (snd run))) = ["mydrones"]
   /\ map callName (writes (calls (snd run))) = ["a"; "c"]
   /\ fst run' = Some (Transient Conflict))
  /\ (fst run = None
      /\ Replica.deployments (store (snd run))
         = filter (fun x => negb (GC.stale Drone x))
             (Replica.deployments (store threeOwned))
      /\ Replica.drones (store (snd run)) = Replica.drones (store threeOwned)
      /\ writes (calls (snd run))
         = writes (calls threeOwned)
           ++ map GC.deleteCall
                (filter (GC.stale Drone) (Replica.deployments (store threeOwned))))
  /\ (exists new,
        calls (snd run') = calls threeOwnedFailing ++ new
        /\ forall pre call post,
             new = pre ++ call :: post ->
             verb call = VDelete -> result call <> None ->
             fst run' = result call /\ post = []).
Proof.
  intros Drone run run'. split; [repeat split|].
  apply (garbage_collection_pass Drone threeOwned (snd run)
           threeOwnedFailing (snd run') (fst run) (fst run')).
  - reflexivity.
  - exact threeOwned_uniqueKeys.
  - apply surjective_pairing.
  - apply surjective_pairing.
Defined.

(** ** The replica-counted reconciler on a quiet store *)

(** Once the Drone is fetched and the garbage collection is through,
    [Replica.Reconcile] follows [Quiet.converge]. *)
Lemma Reconcile_after_cleanup (req : Request) (Drone : Replica.Drone)
    (dr : list Replica.Drone) (D D1 : list Replica.Deployment)
    (cs cs1 : list Call) :
  lookup (ReqNamespace req) (ReqName req) dr = Some Drone ->
  Replica.cleanupOwnedResources Drone
    (mkClient (Replica.mkCluster dr D) []
       (cs ++ [mkCall VGet KDrone (ReqNamespace req) (ReqName req) None]))
  = (None, mkClient (Replica.mkCluster dr D1) [] cs1) ->
  Replica.Reconcile req (mkClient (Replica.mkCluster dr D) [] cs)
  = Quiet.converge Drone dr D1 cs1.
Proof.
  intros L C. unfold Replica.Reconcile. unfold bind at 1.
  rewrite clientGet_quiet by apply quiet_nil.
  cbn [store faults calls tl Replica.drones]. rewrite L. cbn [errOf].
  unfold bind at 1. rewrite C. unfold bind at 1.
  rewrite clientGet_quiet by apply quiet_nil.
  cbn [store faults calls tl Replica.deployments].
  unfold Quiet.converge.
  destruct (lookup (Namespace (Replica.DroneMeta Drone)) "mydrones" D1)
    as [depl|] eqn:G.
  - cbn [errOf]. destruct (Replica.Replicas (Replica.DSpec depl)) as [n|];
      [|reflexivity].
    apply lookup_key in G as G'. destruct G' as (_ & Gn & Gm). simpl meta in Gn, Gm.
    destruct (negb (n =? Replica.expectedReplicas Drone)%Z).
    + unfold bind, clientUpdate.
      rewrite clientWrite_quiet with (old := depl);
        [|apply quiet_nil|simpl; now rewrite Gn, Gm].
      simpl. rewrite Gn, Gm, <- app_assoc. reflexivity.
    + apply lookup_key in L as L'. destruct L' as (_ & Ln & Lm). simpl meta in Ln, Lm.
      unfold bind.
      rewrite clientWrite_quiet with (old := Drone);
        [|apply quiet_nil|simpl; now rewrite Ln, Lm].
      simpl. rewrite <- app_assoc. reflexivity.
  - cbn [errOf]. unfold bind.
    rewrite clientCreate_quiet; [|apply quiet_nil|exact G].
    simpl. rewrite <- app_assoc. reflexivity.
Qed.

Lemma Reconcile_quiet (req : Request) (Drone : Replica.Drone)
    (dr : list Replica.Drone) (D : list Replica.Deployment) (cs : list Call) :
  uniqueKeys D ->
  lookup (ReqNamespace req) (ReqName req) dr = Some Drone ->
  Replica.Reconcile req (mkClient (Replica.mkCluster dr D) [] cs)
  = Quiet.converge Drone dr (filter (fun x => negb (GC.stale Drone x)) D)
      (cs ++ [mkCall VGet KDrone (ReqNamespace req) (ReqName req) None;
              mkCall VList KDeployment (Namespace (Replica.DroneMeta Drone)) "" None]
          ++ map GC.deleteCall (filter (GC.stale Drone) D)).
Proof.
  intros U L. apply Reconcile_after_cleanup; [exact L|].
  rewrite cleanup_quiet by exact U. now rewrite <- app_assoc.
Qed.

(** The canonical set is never stale. *)
Lemma canonical_not_stale (Drone : Replica.Drone) (depl : Replica.Deployment) :
  Name (Replica.DeploymentMeta depl) = "mydrones" ->
  negb (GC.stale Drone depl) = true.
Proof.
  intros E. unfold GC.stale, GC.staleName. rewrite E. simpl.
  now rewrite andb_false_r.
Qed.

(** C6, as the code has it: when the canonical set exists and declares a
    replica count other than the desired one, a pass on a store that
    answers every call (and holds one deployment per key) first deletes
    the owned sets that are not named canonically, then updates the
    canonical set, changing its declared replica count and nothing else,
    and returns at once: the update is its last call, the Drones are
    untouched, and no create or further update is issued. *)
Theorem replica_adjustment_pass
    (req : Request) (c : Client Replica.Cluster) (Drone : Replica.Drone)
    (depl : Replica.Deployment) (n : Z) :
  faults c = [] ->
  uniqueKeys (Replica.deployments (store c)) ->
  lookup (ReqNamespace req) (ReqName req) (Replica.drones (store c)) = Some Drone ->
  lookup (Namespace (Replica.DroneMeta Drone)) "mydrones"
    (Replica.deployments (store c)) = Some depl ->
  Replica.Replicas (Replica.DSpec depl) = Some n ->
  n <> Replica.expectedReplicas Drone ->
  exists c',
    Replica.Reconcile req c = (Return None, c')
    /\ Replica.drones (store c') = Replica.drones (store c)
    /\ Replica.deployments (store c')
       = replace (Replica.withReplicas depl (Some (Replica.expectedReplicas Drone)))
           (filter (fun x => negb (GC.stale Drone x)) (Replica.deployments (store c)))
    /\ calls c'
       = calls c
         ++ [mkCall VGet KDrone (ReqNamespace req) (ReqName req) None;
             mkCall VList KDeployment (Namespace (Replica.DroneMeta Drone)) "" None]
         ++ map GC.deleteCall
              (filter (GC.stale Drone) (Replica.deployments (store c)))
         ++ [mkCall VGet KDeployment (Namespace (Replica.DroneMeta Drone))
               "mydrones" None;
             mkCall VUpdate KDeployment (Namespace (Replica.DroneMeta Drone))
               "mydrones" None].
Proof.
  destruct c as [[dr D] fs cs]. simpl. intros -> U L G R Ne.
  rewrite (Reconcile_quiet req Drone dr D cs U L). unfold Quiet.converge.
  apply lookup_key in G as G'. destruct G' as (_ & _ & Gm). simpl meta in Gm.
  rewrite (lookup_filter _ _ _ _ _ G (canonical_not_stale Drone depl Gm)).
  rewrite R. apply Z.eqb_neq in Ne. rewrite Ne. simpl negb. cbv iota.
  eexists. split; [reflexivity|]. simpl.
  repeat split. now rewrite <- !app_assoc.
Qed.

Lemma replica_adjustment_witness :
  exists c',
    Replica.Reconcile (mkRequest "default" "d") threeOwned = (Return None, c')
    /\ Replica.drones (store c') = Replica.drones (store threeOwned)
    /\ map (fun x => (Name (Replica.DeploymentMeta x),
                      Replica.Replicas (Replica.DSpec x)))
         (Replica.deployments (store c')) = [("mydrones", Some 2%Z)]
    /\ map (fun x => (verb x, callName x)) (writes (calls c'))
       = [(VDelete, "a"); (VDelete, "c"); (VUpdate, "mydrones")].
Proof.
  destruct (replica_adjustment_pass (mkRequest "default" "d") threeOwned
              (replicaDrone (Some 2%Z) 0) (ownedSet "mydrones") 5)
    as (c' & Run & Hd & HD & Hc);
    [reflexivity | exact threeOwned_uniqueKeys | reflexivity | reflexivity
    | reflexivity | discriminate |].
  exists c'. split; [exact Run|]. split; [exact Hd|].
  rewrite HD, Hc. split; reflexivity.
Defined.

(** C6 as stated fails: with two stale owned sets beside the canonical
    one, the pass that adjusts the replica count from 5 to 2 issues two
    deletes before its update. *)
Lemma adjustment_is_not_the_only_write :
  exists c' depl,
    lookup "default" "mydrones" (Replica.deployments (store threeOwned)) = Some depl
    /\ Replica.Replicas (Replica.DSpec depl) = Some 5%Z
    /\ Replica.expectedReplicas (replicaDrone (Some 2%Z) 0) = 2%Z
    /\ Replica.Reconcile (mkRequest "default" "d") threeOwned = (Return None, c')
    /\ map (fun x => (verb x, callName x)) (writes (calls c'))
       = [(VDelete, "a"); (VDelete, "c"); (VUpdate, "mydrones")]
    /\ length (Replica.deployments (store c')) = 1%nat
    /\ length (Replica.deployments (store threeOwned)) = 3%nat.
Proof.
  eexists. eexists. split; [reflexivity|]. split; [reflexivity|].
  split; [reflexivity|]. split; [vm_compute; reflexivity|].
  repeat split.
Qed.

(** ** Two passes in a row *)

Lemma cleanup_loop_noop (items : list Replica.Deployment) (c : Client Replica.Cluster) :
  (forall x, In x items -> GC.staleName x = false) ->
  forRange items Replica.cleanupBody c = (None, c).
Proof.
  induction items as [|x items IH]; intros Hn; [reflexivity|].
  cbn [forRange]. unfold bind, Replica.cleanupBody.
  assert (E : GC.staleName x = false) by (apply Hn; now left).
  unfold GC.staleName in E. apply negb_false_iff in E. rewrite E.
  unfold ret at 1. apply IH. intros y I. apply Hn. now right.
Qed.

(** A pass over a cluster without stale sets lists and deletes nothing. *)
Lemma cleanup_noop (Drone : Replica.Drone) (dr : list Replica.Drone)
    (D : list Replica.Deployment) (cs : list Call) :
  (forall x, In x D -> GC.stale Drone x = false) ->
  Replica.cleanupOwnedResources Drone (mkClient (Replica.mkCluster dr D) [] cs)
  = (None,
     mkClient (Replica.mkCluster dr D) []
       (cs ++ [mkCall VList KDeployment (Namespace (Replica.DroneMeta Drone)) "" None])).
Proof.
  intros Hn. unfold Replica.cleanupOwnedResources, bind.
  rewrite clientList_quiet by apply quiet_nil.
  cbn [store faults calls tl Replica.deployments].
  apply cleanup_loop_noop. intros x I. apply filter_In in I as [I O].
  specialize (Hn x I). unfold GC.stale in Hn. now rewrite O in Hn.
Qed.

Lemma Reconcile_settled (req : Request) (Drone : Replica.Drone)
    (dr : list Replica.Drone) (D : list Replica.Deployment) (cs : list Call) :
  lookup (ReqNamespace req) (ReqName req) dr = Some Drone ->
  (forall x, In x D -> GC.stale Drone x = false) ->
  Replica.Reconcile req (mkClient (Replica.mkCluster dr D) [] cs)
  = Quiet.converge Drone dr D
      ((cs ++ [mkCall VGet KDrone (ReqNamespace req) (ReqName req) None])
          ++ [mkCall VList KDeployment (Namespace (Replica.DroneMeta Drone)) "" None]).
Proof.
  intros L Hn. apply Reconcile_after_cleanup; [exact L|].
  now apply cleanup_noop.
Qed.

(** When the canonical set is there and its declared count, if any, is
    the expected one, [Quiet.converge] writes at most the Drone's status. *)
Lemma converge_settled (Drone : Replica.Drone) (dr : list Replica.Drone)
    (D : list Replica.Deployment) (cs : list Call) (depl : Replica.Deployment) :
  lookup (Namespace (Replica.DroneMeta Drone)) "mydrones" D = Some depl ->
  (forall n, Replica.Replicas (Replica.DSpec depl) = Some n ->
             n = Replica.expectedReplicas Drone) ->
  exists new,
    calls (snd (Quiet.converge Drone dr D cs)) = cs ++ new
    /\ (writes new = []
        \/ writes new
           = [mkCall VStatusUpdate KDrone (Namespace (Replica.DroneMeta Drone))
                (Name (Replica.DroneMeta Drone)) None]).
Proof.
  intros G R. unfold Quiet.converge. rewrite G.
  destruct (Replica.Replicas (Replica.DSpec depl)) as [n|].
  - rewrite (R n eq_refl), Z.eqb_refl. simpl.
    eexists. split; [reflexivity|]. now right.
  - simpl. eexists. split; [reflexivity|]. now left.
Qed.

(** A pass over a settled cluster: no stale set, the canonical set
    present with the expected declared count (or none at all). *)
Lemma settled_pass (req : Request) (Drone : Replica.Drone)
    (dr : list Replica.Drone) (D : list Replica.Deployment) (cs : list Call)
    (depl : Replica.Deployment) (o : Outcome) (c' : Client Replica.Cluster) :
  lookup (ReqNamespace req) (ReqName req) dr = Some Drone ->
  (forall x, In x D -> GC.stale Drone x = false) ->
  lookup (Namespace (Replica.DroneMeta Drone)) "mydrones" D = Some depl ->
  (forall n, Replica.Replicas (Replica.DSpec depl) = Some n ->
             n = Replica.expectedReplicas Drone) ->
  Replica.Reconcile req (mkClient (Replica.mkCluster dr D) [] cs) = (o, c') ->
  exists new,
    calls c' = cs ++ new
    /\ (writes new = []
        \/ writes new
           = [mkCall VStatusUpdate KDrone (ReqNamespace req) (ReqName req) None]).
Proof.
  intros L Hn G R Run.
  rewrite (Reconcile_settled req Drone dr D cs L Hn) in Run.
  apply lookup_key in L as (_ & Ln & Lm). simpl meta in Ln, Lm.
  destruct (converge_settled Drone dr D
              ((cs ++ [mkCall VGet KDrone (ReqNamespace req) (ReqName req) None])
                 ++ [mkCall VList KDeployment
                       (Namespace (Replica.DroneMeta Drone)) "" None])
              depl G R) as (new & Ec & W).
  rewrite Run in Ec. simpl snd in Ec.
  exists ([mkCall VGet KDrone (ReqNamespace req) (ReqName req) None;
           mkCall VList KDeployment (Namespace (Replica.DroneMeta Drone)) "" None]
            ++ new).
  split.
  - rewrite Ec. now rewrite <- !app_assoc.
  - rewrite writes_app. cbn. now rewrite <- Ln, <- Lm.
Qed.

(** A pass over a settled cluster, exactly: it updates the Drone's status
    and returns nil when the canonical set declares a count, which is then
    the expected one; it panics without a write when the set declares
    none. *)
Lemma settled_pass_exact (req : Request) (Drone : Replica.Drone)
    (dr : list Replica.Drone) (D : list Replica.Deployment) (cs : list Call)
    (depl : Replica.Deployment) (o : Outcome) (c' : Client Replica.Cluster) :
  lookup (ReqNamespace req) (ReqName req) dr = Some Drone ->
  (forall x, In x D -> GC.stale Drone x = false) ->
  lookup (Namespace (Replica.DroneMeta Drone)) "mydrones" D = Some depl ->
  (forall n, Replica.Replicas (Replica.DSpec depl) = Some n ->
             n = Replica.expectedReplicas Drone) ->
  Replica.Reconcile req (mkClient (Replica.mkCluster dr D) [] cs) = (o, c') ->
  exists new,
    calls c' = cs ++ new
    /\ (writes new = []
        \/ writes new
           = [mkCall VStatusUpdate KDrone (ReqNamespace req) (ReqName req) None])
    /\ exists depl',
         lookup (Namespace (Replica.DroneMeta Drone)) "mydrones" D = Some depl'
         /\ match Replica.Replicas (Replica.DSpec depl') with
            | Some n =>
                n = Replica.expectedReplicas Drone
                /\ writes new
                   = [mkCall VStatusUpdate KDrone (ReqNamespace req)
                        (ReqName req) None]
                /\ o = Return None
            | None => writes new = [] /\ o = Panic
            end.
Proof.
  intros L Hn G R Run.
  rewrite (Reconcile_settled req Drone dr D cs L Hn) in Run.
  apply lookup_key in L as (_ & Ln & Lm). simpl meta in Ln, Lm.
  unfold Quiet.converge in Run. rewrite G in Run.
  destruct (Replica.Replicas (Replica.DSpec depl)) as [n|] eqn:E.
  - rewrite (R n eq_refl), Z.eqb_refl in Run. cbn [negb] in Run.
    injection Run as <- <-. cbn [calls].
    exists ([mkCall VGet KDrone (ReqNamespace req) (ReqName req) None;
             mkCall VList KDeployment (Namespace (Replica.DroneMeta Drone)) "" None;
             mkCall VGet KDeployment (Namespace (Replica.DroneMeta Drone))
               "mydrones" None;
             mkCall VStatusUpdate KDrone (Namespace (Replica.DroneMeta Drone))
               (Name (Replica.DroneMeta Drone)) None]).
    split; [now rewrite <- !app_assoc|]. cbn [writes filter isWrite verb].
    split; [rewrite Ln, Lm; now right|].
    exists depl. split; [exact G|]. rewrite E, Ln, Lm.
    split; [exact (R n eq_refl)|]. split; reflexivity.
  - injection Run as <- <-. cbn [calls].
    exists ([mkCall VGet KDrone (ReqNamespace req) (ReqName req) None;
             mkCall VList KDeployment (Namespace (Replica.DroneMeta Drone)) "" None;
             mkCall VGet KDeployment (Namespace (Replica.DroneMeta Drone))
               "mydrones" None]).
    split; [now rewrite <- !app_assoc|]. cbn [writes filter isWrite verb].
    split; [now left|].
    exists depl. split; [exact G|]. rewrite E. split; reflexivity.
Qed.

(** C2, as the code has it: after one pass on a store that answers every
    call and holds one deployment per key, a second pass issues no
    create, no delete and no update of the workload set; its only write,
    if any, is the update of the Drone's status.  It issues that update,
    and returns nil, whenever the Drone exists and the canonical set
    declares a replica count, which after the first pass is always the
    desired one; it writes nothing when the Drone is gone, and panics
    without a write when the set declares no count. *)
Theorem second_pass_writes_status_only
    (req : Request) (c c1 c2 : Client Replica.Cluster) (o1 o2 : Outcome) :
  faults c = [] ->
  uniqueKeys (Replica.deployments (store c)) ->
  Replica.Reconcile req c = (o1, c1) ->
  Replica.Reconcile req c1 = (o2, c2) ->
  exists new,
    calls c2 = calls c1 ++ new
    /\ (writes new = []
        \/ writes new
           = [mkCall VStatusUpdate KDrone (ReqNamespace req) (ReqName req) None])
    /\ match lookup (ReqNamespace req) (ReqName req) (Replica.drones (store c1)) with
       | None => writes new = [] /\ o2 = Return None
       | Some Drone =>
           exists depl,
             lookup (Namespace (Replica.DroneMeta Drone)) "mydrones"
               (Replica.deployments (store c1)) = Some depl
             /\ match Replica.Replicas (Replica.DSpec depl) with
                | Some n =>
                    n = Replica.expectedReplicas Drone
                    /\ writes new
                       = [mkCall VStatusUpdate KDrone (ReqNamespace req)
                            (ReqName req) None]
                    /\ o2 = Return None
                | None => writes new = [] /\ o2 = Panic
                end
       end.
Proof.
  destruct c as [[dr D] fs cs]. simpl. intros -> U Run1 Run2.
  destruct (lookup (ReqNamespace req) (ReqName req) dr) as [Drone|] eqn:L.
  - (* the Drone exists *)
    rewrite (Reconcile_quiet req Drone dr D cs U L) in Run1.
    apply lookup_key in L as L'. destruct L' as (_ & Ln & Lm). simpl meta in Ln, Lm.
    set (D1 := filter (fun x => negb (GC.stale Drone x)) D) in *.
    assert (S1 : forall x, In x D1 -> GC.stale Drone x = false).
    { intros x I. apply filter_In in I as [_ I]. now apply negb_true_iff in I. }
    set (cs1 := cs ++ _ ++ _) in Run1. clearbody cs1.
    revert Run2. unfold Quiet.converge in Run1.
    destruct (lookup (Namespace (Replica.DroneMeta Drone)) "mydrones" D1)
      as [depl|] eqn:G.
    + apply lookup_key in G as G'. destruct G' as (_ & Gn & Gm).
      simpl meta in Gn, Gm.
      destruct (Replica.Replicas (Replica.DSpec depl)) as [n|] eqn:R.
      * destruct (negb (n =? Replica.expectedReplicas Drone)%Z) eqn:Ne.
        -- (* the first pass adjusted the declared count *)
           injection Run1 as <- <-. intros Run2.
           cbn [store calls Replica.drones Replica.deployments]. rewrite L.
           eapply (settled_pass_exact req Drone) in Run2; [exact Run2|exact L| | |].
           ++ intros x I. apply In_replace in I as [->|I]; [|now apply S1].
              apply negb_true_iff. apply canonical_not_stale. exact Gm.
           ++ apply lookup_replace with (old := depl); auto.
           ++ simpl. now intros ? [= <-].
        -- (* the first pass synced the status *)
           injection Run1 as <- <-. intros Run2.
           apply negb_false_iff, Z.eqb_eq in Ne.
           cbn [store calls Replica.drones Replica.deployments].
           assert (L2 : lookup (ReqNamespace req) (ReqName req)
                          (replace
                             (Replica.withFlyingDrones Drone
                                (Replica.StatusReplicas (Replica.DStatus depl))) dr)
                        = Some (Replica.withFlyingDrones Drone
                                  (Replica.StatusReplicas (Replica.DStatus depl))))
             by (apply lookup_replace with (old := Drone); auto).
           rewrite L2.
           eapply (settled_pass_exact req
                     (Replica.withFlyingDrones Drone
                        (Replica.StatusReplicas (Replica.DStatus depl))))
             in Run2; [exact Run2|exact L2|exact S1|exact G|].
           intros m Rm. rewrite R in Rm. injection Rm as <-. exact Ne.
      * (* the first pass met a set without a declared count *)
        injection Run1 as <- <-. intros Run2.
        cbn [store calls Replica.drones Replica.deployments]. rewrite L.
        eapply (settled_pass_exact req Drone) in Run2;
          [exact Run2|exact L|exact S1|exact G|].
        intros m Rm. rewrite R in Rm. discriminate.
    + (* the first pass created the set *)
      injection Run1 as <- <-. intros Run2.
      cbn [store calls Replica.drones Replica.deployments]. rewrite L.
      eapply (settled_pass_exact req Drone) in Run2; [exact Run2|exact L| | |].
      * intros x I. apply in_app_or in I as [I|[<-|[]]]; [now apply S1|].
        apply negb_true_iff. now apply canonical_not_stale.
      * apply lookup_app_new; [exact G|].
        exact (@hasKey_self _ Replica.Deployment_KObject
                 (Replica.buildDeployment Drone)).
      * simpl. unfold Replica.expectedReplicas. now intros m ->.
  - (* the Drone is gone *)
    unfold Replica.Reconcile, bind in Run1.
    rewrite clientGet_quiet in Run1 by apply quiet_nil.
    cbn [store faults calls tl Replica.drones] in Run1. rewrite L in Run1.
    injection Run1 as <- <-.
    unfold Replica.Reconcile, bind in Run2.
    rewrite clientGet_quiet in Run2 by apply quiet_nil.
    cbn [store faults calls tl Replica.drones] in Run2. rewrite L in Run2.
    injection Run2 as <- <-.
    cbn [store calls Replica.drones]. rewrite L.
    eexists. split; [reflexivity|]. split; [now left|]. split; reflexivity.
Qed.

Lemma second_pass_witness :
  let run1 := Replica.Reconcile (mkRequest "default" "d") threeOwned in
  let run2 := Replica.Reconcile (mkRequest "default" "d") (snd run1) in
  exists new,
    calls (snd run2) = calls (snd run1) ++ new
    /\ writes new = [mkCall VStatusUpdate KDrone "default" "d" None]
    /\ fst run2 = Return None.
Proof.
  intros run1 run2.
  destruct (second_pass_writes_status_only (mkRequest "default" "d") threeOwned
              (snd run1) (snd run2) (fst run1) (fst run2))
    as (new & Ec & _ & M);
    [reflexivity | exact threeOwned_uniqueKeys
    | apply surjective_pairing | apply surjective_pairing |].
  exists new. split; [exact Ec|].
  change (lookup (ReqNamespace (mkRequest "default" "d"))
            (ReqName (mkRequest "default" "d"))
            (Replica.drones (store (snd run1))))
    with (Some (replicaDrone (Some 2%Z) 0)) in M.
  destruct M as (depl & Hl & M).
  change (lookup (Namespace (Replica.DroneMeta (replicaDrone (Some 2%Z) 0)))
            "mydrones" (Replica.deployments (store (snd run1))))
    with (Some (Replica.withReplicas (ownedSet "mydrones") (Some 2%Z))) in Hl.
  injection Hl as <-. destruct M as (_ & Hw & Ho). split; assumption.
Defined.

(** C2 as stated fails: on a cluster at rest, where nothing changes
    between or during the passes, the second pass issues an update call
    all the same, the one of the Drone's status. *)
Lemma second_pass_still_updates :
  exists c1 c2,
    Replica.Reconcile (mkRequest "default" "d") atRest = (Return None, c1)
    /\ store c1 = store atRest
    /\ Replica.Reconcile (mkRequest "default" "d") c1 = (Return None, c2)
    /\ store c2 = store atRest
    /\ writes (calls c1) = [mkCall VStatusUpdate KDrone "default" "d" None]
    /\ writes (calls c2) = [mkCall VStatusUpdate KDrone "default" "d" None;
                            mkCall VStatusUpdate KDrone "default" "d" None].
Proof.
  eexists. eexists. split; [vm_compute; reflexivity|].
  split; [reflexivity|]. split; [vm_compute; reflexivity|].
  repeat split.
Qed.

(** ** The observed count of a Swarm *)

Section WriteFacts.
Context {S A : Type} `{KObject A}.
Variable k : Kind.
Variable proj : S -> list A.
Variable inj : list A -> S -> S.

Lemma clientGet_not_found (ns name : string) (c c' : Client S) :
  clientGet k proj ns name c = (inl NotFound, c') ->
  lookup ns name (proj (store c)) = None.
Proof.
  destruct c as [s fs cs].
  unfold clientGet, bind, nextFault, getStore, logCall, ret; simpl.
  destruct fs as [|[f|] fs]; simpl;
    destruct (lookup ns name (proj s)); intros [= <-]; auto.
Qed.

Lemma clientCreate_store (x : A) (c c' : Client S) (e : option error) :
  clientCreate k proj inj x c = (e, c') ->
  store c' = store c \/ store c' = inj (proj (store c) ++ [x]) (store c).
Proof.
  destruct c as [s fs cs].
  unfold clientCreate, bind, nextFault, getStore, setStore, logCall, ret; simpl.
  destruct fs as [|[f|] fs]; simpl;
    try destruct (lookup _ _ (proj s)); intros [= <- <-]; auto.
Qed.

Lemma clientDelete_store (ns name : string) (c c' : Client S) (e : option error) :
  clientDelete k proj inj ns name c = (e, c') ->
  store c' = store c \/ store c' = inj (remove ns name (proj (store c))) (store c).
Proof.
  destruct c as [s fs cs].
  unfold clientDelete, bind, nextFault, getStore, setStore, logCall, ret; simpl.
  destruct fs as [|[f|] fs]; simpl;
    try destruct (lookup _ _ (proj s)); intros [= <- <-]; auto.
Qed.

Lemma clientWrite_done (v : Verb) (merge : A -> A -> A) (x : A) (c c' : Client S) :
  clientWrite k proj inj v merge x c = (None, c') ->
  exists old,
    lookup (Namespace (meta x)) (Name (meta x)) (proj (store c)) = Some old
    /\ store c' = inj (replace (merge old x) (proj (store c))) (store c).
Proof.
  destruct c as [s fs cs].
  unfold clientWrite, bind, nextFault, getStore, setStore, logCall, ret; simpl.
  destruct fs as [|[f|] fs]; simpl;
    try destruct (lookup _ _ (proj s)) as [old|]; intros [= <-];
    exists old; auto.
Qed.
End WriteFacts.

(** C9, as the code has it: after a Swarm reconciliation that returned
    no error for a Swarm that exists, the stored Swarm's observed count
    is the [int32] length of the list of all Drones of the cluster, every
    namespace included, as the store holds it when the pass ends; below
    [2^31] Drones it is their number. *)
Theorem observed_count_is_cluster_wide
    (randomName : string) (req : Request) (c c' : Client Fleet.Cluster)
    (swarm : Fleet.Swarm) :
  lookup (ReqNamespace req) (ReqName req) (Fleet.swarms (store c)) = Some swarm ->
  Fleet.SwarmReconciler.Reconcile randomName req c = (Return None, c') ->
  exists swarm',
    lookup (ReqNamespace req) (ReqName req) (Fleet.swarms (store c')) = Some swarm'
    /\ Fleet.FlyingDrones swarm'
       = to_int32 (Z.of_nat (length (Fleet.drones (store c'))))
    /\ ((Z.of_nat (length (Fleet.drones (store c'))) < 2 ^ 31)%Z ->
        Fleet.FlyingDrones swarm' = Z.of_nat (length (Fleet.drones (store c')))).
Proof.
  intros L. unfold Fleet.SwarmReconciler.Reconcile. unfold bind at 1.
  destruct (clientGet _ _ _ _ c) as [[e|sw] c1] eqn:G.
  { destruct e; unfold ret, IgnoreNotFound; simpl; try discriminate.
    apply clientGet_not_found in G. congruence. }
  apply clientGet_found in G as Gf. rewrite L in Gf. injection Gf as <-.
  apply clientGet_frame in G as [Gs _].
  unfold bind at 1.
  destruct (clientList _ _ _ _ c1) as [[e|items] c2] eqn:Li;
    [unfold ret; discriminate|].
  apply clientList_frame in Li as [Ls _].
  destruct (Fleet.HowMany swarm) as [howmany|]; [|unfold ret; discriminate].
  unfold bind at 1.
  set (create := if (_ <? _)%Z then _ else _).
  destruct (create c2) as [[e|] c3] eqn:Cr; [unfold ret; discriminate|].
  assert (S3 : Fleet.swarms (store c3) = Fleet.swarms (store c)).
  { subst create. destruct (_ <? _)%Z.
    - apply clientCreate_store in Cr as [-> | ->]; simpl; congruence.
    - unfold ret in Cr. injection Cr as <-. congruence. }
  unfold bind at 1.
  set (delete := if (_ >? _)%Z then _ else _).
  destruct (delete c3) as [p c4] eqn:De.
  assert (S4 : Fleet.swarms (store c4) = Fleet.swarms (store c)).
  { subst delete. destruct (_ >? _)%Z.
    - destruct items as [|first rest].
      + unfold ret in De. injection De as _ <-. exact S3.
      + unfold bind in De.
        destruct (clientDelete _ _ _ _ _ c3) as [e c4'] eqn:Del.
        unfold ret in De. injection De as _ <-.
        apply clientDelete_store in Del as [-> | ->]; simpl; congruence.
    - unfold ret in De. injection De as _ <-. exact S3. }
  destruct p; cbn [negb]; [|unfold ret; discriminate].
  unfold bind at 1.
  destruct (clientList KDrone Fleet.drones "" (fun _ : Fleet.Drone => true) c4)
    as [[e|items'] c5] eqn:Li';
    [unfold ret; discriminate|].
  apply clientList_items in Li' as Ei. apply clientList_frame in Li' as [Ls' _].
  rewrite filter_all in Ei by reflexivity.
  unfold bind, clientUpdate.
  destruct (clientWrite _ _ _ _ _ _ c5) as [[e|] c6] eqn:Up;
    [unfold ret; discriminate|].
  unfold ret. intros [= <-].
  apply clientWrite_done in Up as (old & Lo & ->).
  apply lookup_key in L as (_ & Ln & Lm). simpl meta in Ln, Lm.
  cbn [Fleet.setSwarms Fleet.swarms Fleet.drones].
  simpl meta in Lo. rewrite Ln, Lm in Lo.
  eexists. split; [|split].
  - apply lookup_replace with (old := old); [exact Lo|exact Ln|exact Lm].
  - simpl. rewrite Ei, Ls'. reflexivity.
  - simpl. rewrite Ei, Ls'. intros Lt. unfold to_int32.
    rewrite Z.mod_small; lia.
Qed.

Lemma observed_count_witness :
  exists swarm',
    lookup "a" "fleet" (Fleet.swarms (store (snd
      (Fleet.SwarmReconciler.Reconcile "busy_bee" (mkRequest "a" "fleet")
         twoNamespaces)))) = Some swarm'
    /\ Fleet.FlyingDrones swarm' = 2%Z.
Proof.
  destruct (observed_count_is_cluster_wide "busy_bee" (mkRequest "a" "fleet")
              twoNamespaces
              (snd (Fleet.SwarmReconciler.Reconcile "busy_bee"
                      (mkRequest "a" "fleet") twoNamespaces))
              (Fleet.mkSwarm (objectMeta "a" "fleet") (Some 2%Z) 0))
    as (swarm' & Hl & Hc & _); [reflexivity | reflexivity |].
  exists swarm'. split; [exact Hl|]. rewrite Hc. reflexivity.
Defined.

(** C9 as stated fails: the Swarm of namespace [a] records two flying
    Drones while one Drone exists in [a]; the other lives in [b]. *)
Lemma observed_count_not_per_namespace :
  exists c' swarm',
    Fleet.SwarmReconciler.Reconcile "busy_bee" (mkRequest "a" "fleet")
      twoNamespaces = (Return None, c')
    /\ lookup "a" "fleet" (Fleet.swarms (store c')) = Some swarm'
    /\ Fleet.FlyingDrones swarm' = 2%Z
    /\ length (filter (InNamespace "a") (Fleet.drones (store c'))) = 1%nat.
Proof.
  eexists. eexists. split; [vm_compute; reflexivity|].
  repeat split.
Qed.

(** ** One unit of change per Swarm reconciliation *)

Section LogFacts.
Context {S A : Type} `{KObject A}.
Variable k : Kind.
Variable proj : S -> list A.
Variable inj : list A -> S -> S.

Lemma clientCreate_log (x : A) (c c' : Client S) (e : option error) :
  clientCreate k proj inj x c = (e, c') ->
  calls c' = calls c ++ [mkCall VCreate k (Namespace (meta x)) (Name (meta x)) e].
Proof.
  destruct c as [s fs cs].
  unfold clientCreate, bind, nextFault, getStore, setStore, logCall, ret; simpl.
  destruct fs as [|[f|] fs]; simpl;
    try destruct (lookup _ _ (proj s)); intros [= <- <-]; reflexivity.
Qed.

Lemma clientWrite_log (v : Verb) (merge : A -> A -> A) (x : A) (c c' : Client S)
    (e : option error) :
  clientWrite k proj inj v merge x c = (e, c') ->
  calls c' = calls c ++ [mkCall v k (Namespace (meta x)) (Name (meta x)) e].
Proof.
  destruct c as [s fs cs].
  unfold clientWrite, bind, nextFault, getStore, setStore, logCall, ret; simpl.
  destruct fs as [|[f|] fs]; simpl;
    try destruct (lookup _ _ (proj s)); intros [= <- <-]; reflexivity.
Qed.
End LogFacts.

(** Whatever the store answers, one invocation of the Swarm reconciler
    issues at most one create or one delete, never both. *)
Lemma swarm_one_create_or_one_delete
    (randomName : string) (req : Request) (c c' : Client Fleet.Cluster)
    (o : Outcome) :
  Fleet.SwarmReconciler.Reconcile randomName req c = (o, c') ->
  exists new,
    calls c' = calls c ++ new
    /\ (countVerb VCreate new + countVerb VDelete new <= 1)%nat.
Proof.
  unfold Fleet.SwarmReconciler.Reconcile. unfold bind at 1.
  destruct (clientGet _ _ _ _ c) as [[e|sw] c1] eqn:G;
    apply clientGet_frame in G as [_ G1].
  { unfold ret. intros [= <- <-]. eexists. split; [exact G1|]. cbn. lia. }
  unfold bind at 1.
  destruct (clientList _ _ _ _ c1) as [[e|items] c2] eqn:Li;
    apply clientList_frame in Li as [_ L2]; rewrite G1 in L2.
  { unfold ret. intros [= <- <-]. eexists.
    split; [rewrite L2, <- app_assoc; reflexivity|]. cbn. lia. }
  destruct (Fleet.HowMany sw) as [howmany|].
  2:{ unfold ret. intros [= <- <-]. eexists.
      split; [rewrite L2, <- app_assoc; reflexivity|]. cbn. lia. }
  unfold bind at 1.
  destruct (to_int32 (Z.of_nat (length items)) <? howmany)%Z eqn:Lt.
  - (* scale-up: the second comparison is false *)
    assert (Gt : (to_int32 (Z.of_nat (length items)) >? howmany)%Z = false).
    { apply Z.ltb_lt in Lt. rewrite Z.gtb_ltb. apply Z.ltb_ge. lia. }
    rewrite Gt.
    destruct (clientCreate _ _ _ _ c2) as [[e|] c3] eqn:Cr;
      apply clientCreate_log in Cr; rewrite L2 in Cr.
    { unfold ret. intros [= <- <-]. eexists.
      split; [rewrite Cr, <- !app_assoc; reflexivity|]. cbn. lia. }
    unfold bind at 1. unfold ret at 1. cbn [negb]. unfold bind at 1.
    destruct (clientList KDrone Fleet.drones "" (fun _ : Fleet.Drone => true) c3)
      as [[e|items'] c4] eqn:Li';
      apply clientList_frame in Li' as [_ L4]; rewrite Cr in L4.
    { unfold ret. intros [= <- <-]. eexists.
      split; [rewrite L4, <- !app_assoc; reflexivity|]. cbn. lia. }
    unfold bind, clientUpdate.
    destruct (clientWrite _ _ _ _ _ _ c4) as [e c5] eqn:Up.
    apply clientWrite_log in Up. rewrite L4 in Up.
    assert (Ec : exists new, calls c5 = calls c ++ new
                 /\ (countVerb VCreate new + countVerb VDelete new <= 1)%nat).
    { eexists. split; [rewrite Up, <- !app_assoc; reflexivity|]. cbn. lia. }
    destruct e; unfold ret; intros [= <- <-]; exact Ec.
  - unfold ret at 1. unfold bind at 1.
    destruct (to_int32 (Z.of_nat (length items)) >? howmany)%Z.
    + (* scale-down *)
      destruct items as [|first rest].
      { unfold ret. cbn [negb]. intros [= <- <-]. eexists.
        split; [rewrite L2, <- !app_assoc; reflexivity|]. cbn. lia. }
      unfold bind at 1.
      destruct (clientDelete _ _ _ _ _ c2) as [e c3] eqn:Del.
      apply clientDelete_log in Del. rewrite L2 in Del.
      unfold ret at 1. cbn [negb]. unfold bind at 1.
      destruct (clientList KDrone Fleet.drones "" (fun _ : Fleet.Drone => true) c3)
        as [[e'|items'] c4] eqn:Li';
        apply clientList_frame in Li' as [_ L4]; rewrite Del in L4.
      { unfold ret. intros [= <- <-]. eexists.
        split; [rewrite L4, <- !app_assoc; reflexivity|]. cbn. lia. }
      unfold bind, clientUpdate.
      destruct (clientWrite _ _ _ _ _ _ c4) as [e' c5] eqn:Up.
      apply clientWrite_log in Up. rewrite L4 in Up.
      assert (Ec : exists new, calls c5 = calls c ++ new
                   /\ (countVerb VCreate new + countVerb VDelete new <= 1)%nat).
      { eexists. split; [rewrite Up, <- !app_assoc; reflexivity|]. cbn. lia. }
      destruct e'; unfold ret; intros [= <- <-]; exact Ec.
    + (* the count is the desired one *)
      unfold ret at 1. cbn [negb]. unfold bind at 1.
      destruct (clientList KDrone Fleet.drones "" (fun _ : Fleet.Drone => true) c2)
        as [[e'|items'] c4] eqn:Li';
        apply clientList_frame in Li' as [_ L4]; rewrite L2 in L4.
      { unfold ret. intros [= <- <-]. eexists.
        split; [rewrite L4, <- !app_assoc; reflexivity|]. cbn. lia. }
      unfold bind, clientUpdate.
      destruct (clientWrite _ _ _ _ _ _ c4) as [e' c5] eqn:Up.
      apply clientWrite_log in Up. rewrite L4 in Up.
      assert (Ec : exists new, calls c5 = calls c ++ new
                   /\ (countVerb VCreate new + countVerb VDelete new <= 1)%nat).
      { eexists. split; [rewrite Up, <- !app_assoc; reflexivity|]. cbn. lia. }
      destruct e'; unfold ret; intros [= <- <-]; exact Ec.
Qed.

(** * Further properties of the code *)

(** ** Membership and the owner index *)

(** [stringInSlice] answers true exactly for the members of the slice. *)
Theorem stringInSlice_In (a : string) (l : list string) :
  stringInSlice a l = true <-> In a l.
Proof.
  induction l as [|b l IH]; simpl.
  - split; [discriminate | tauto].
  - destruct (b =? a) eqn:E.
    + apply String.eqb_eq in E. intuition.
    + apply String.eqb_neq in E. rewrite IH. intuition.
Qed.

(** The index registered by [SetupWithManager] files an object under a
    name exactly when its controller reference is a Drone of this API
    group bearing that name; objects without a controller, or controlled
    by anything else, are filed under no name. *)
Theorem owner_index_selects_drone_controlled (v : string) (m : ObjectMeta) :
  MatchingField v m = true
  <-> exists owner,
        GetControllerOf m = Some owner
        /\ APIVersion owner = GroupVersion
        /\ OwnerKind owner = "Drone"
        /\ OwnerName owner = v.
Proof.
  unfold MatchingField, ownerIndex.
  destruct (GetControllerOf m) as [owner|]; simpl.
  - destruct (APIVersion owner =? GroupVersion) eqn:Ea;
      destruct (OwnerKind owner =? "Drone") eqn:Ek; simpl.
    + apply String.eqb_eq in Ea, Ek. destruct (OwnerName owner =? v) eqn:En.
      * apply String.eqb_eq in En. split; [eauto 6|reflexivity].
      * apply String.eqb_neq in En. split; [discriminate|].
        intros (o & [= <-] & _ & _ & E). contradiction.
    + apply String.eqb_neq in Ek. split; [discriminate|].
      intros (o & [= <-] & _ & E & _). contradiction.
    + apply String.eqb_neq in Ea. split; [discriminate|].
      intros (o & [= <-] & E & _). contradiction.
    + apply String.eqb_neq in Ea. split; [discriminate|].
      intros (o & [= <-] & E & _). contradiction.
  - split; [discriminate|]. intros (o & E & _). discriminate.
Qed.

(** What the reconcilers build is what their garbage collection looks
    for: the deployment of [buildDeployment] and the pod of [buildPod] are
    filed by the index under the name of the Drone they were built for,
    and the deployment is owned and not stale. *)
Theorem built_units_are_indexed_under_their_drone
    (Drone : Replica.Drone) (Drone' : Fleet.Drone) (node : string) :
  ownerIndex (Replica.DeploymentMeta (Replica.buildDeployment Drone))
    = [Name (Replica.DroneMeta Drone)]
  /\ Replica.ownedBy Drone (Replica.buildDeployment Drone) = true
  /\ GC.stale Drone (Replica.buildDeployment Drone) = false
  /\ ownerIndex (Fleet.PodMeta (Fleet.DroneReconciler.buildPod Drone' node))
     = [Name (Fleet.DroneMeta Drone')].
Proof.
  split; [reflexivity|]. split; [|split; [|reflexivity]].
  - unfold Replica.ownedBy, InNamespace, MatchingField. simpl.
    now rewrite !String.eqb_refl.
  - unfold GC.stale, GC.staleName. simpl. apply andb_false_r.
Qed.

(** ** The pod-per-node reconciler *)

(** When the pod lookup answers anything but not-found, the
    reconciliation ends there: it returns the lookup's error (nil when
    the pod exists) and writes nothing. *)
Theorem pod_lookup_settles
    (req : Request) (c c1 c2 : Client Fleet.Cluster) (Drone : Fleet.Drone)
    (r : error + Fleet.Pod) :
  clientGet KDrone Fleet.drones (ReqNamespace req) (ReqName req) c = (inr Drone, c1) ->
  clientGet KPod Fleet.pods (Namespace (Fleet.DroneMeta Drone))
    (Name (Fleet.DroneMeta Drone)) c1 = (r, c2) ->
  IsNotFound (errOf r) = false ->
  Fleet.DroneReconciler.Reconcile req c = (Return (errOf r), c2)
  /\ store c2 = store c
  /\ writes (calls c2) = writes (calls c).
Proof.
  intros G P N. split.
  - unfold Fleet.DroneReconciler.Reconcile, bind. rewrite G, P, N.
    now destruct (errOf r).
  - apply clientGet_frame in G as [Gs Gc]. apply clientGet_frame in P as [Ps Pc].
    split; [congruence|].
    rewrite Pc, Gc, !writes_app. simpl. now rewrite !app_nil_r.
Qed.

Lemma pod_lookup_settles_witness :
  exists c2,
    Fleet.DroneReconciler.Reconcile (mkRequest "default" "d1") firstNodeTaken
      = (Return None, c2)
    /\ store c2 = store firstNodeTaken
    /\ writes (calls c2) = writes (calls firstNodeTaken).
Proof.
  eexists.
  eapply (pod_lookup_settles (mkRequest "default" "d1") firstNodeTaken _ _
            (Fleet.mkDrone (objectMeta "default" "d1") true)
            (inr (Fleet.mkPod (objectMeta "default" "d1") "n1"
                    [("kubernetes.io/hostname", "n1")] [])));
    [vm_compute; reflexivity | vm_compute; reflexivity | reflexivity].
Defined.

Lemma placeBody_error (Drone : Fleet.Drone) (e : error)
    (occupied : list string) (node : Fleet.Node) (c : Client Fleet.Cluster) :
  exists e', fst (Fleet.DroneReconciler.placeBody Drone (Some e) occupied node c)
             = Some (Return (Some e')).
Proof.
  unfold Fleet.DroneReconciler.placeBody, bind.
  destruct (negb _).
  - destruct (clientCreate _ _ _ _ c) as [[e1|] c1]; simpl; [eauto|].
    destruct (clientUpdate _ _ _ _ c1) as [u c2]. simpl. eauto.
  - destruct (clientUpdate _ _ _ _ c) as [u c2]. simpl. eauto.
Qed.

(** Once the pod lookup has reported not-found, no path of the
    reconciliation returns a nil error: a placement that succeeded, a
    full fleet and a cluster without machines all end in an error. *)
Theorem placement_path_never_returns_nil
    (req : Request) (c c1 c2 : Client Fleet.Cluster) (Drone : Fleet.Drone) :
  clientGet KDrone Fleet.drones (ReqNamespace req) (ReqName req) c = (inr Drone, c1) ->
  clientGet KPod Fleet.pods (Namespace (Fleet.DroneMeta Drone))
    (Name (Fleet.DroneMeta Drone)) c1 = (inl NotFound, c2) ->
  exists e, fst (Fleet.DroneReconciler.Reconcile req c) = Return (Some e).
Proof.
  intros G P. unfold Fleet.DroneReconciler.Reconcile, bind. rewrite G, P.
  cbn [errOf IsNotFound].
  destruct (clientList _ _ _ _ c2) as [[e|dronenodes] c3]; [simpl; eauto|].
  destruct (clientList _ _ _ _ c3) as [[e|dronepods] c4]; [simpl; eauto|].
  destruct dronenodes as [|node rest]; [simpl; eauto|].
  cbn [forRange]. unfold bind.
  destruct (placeBody_error Drone NotFound (map Fleet.NodeName dronepods) node c4)
    as [e' E].
  destruct (Fleet.DroneReconciler.placeBody _ _ _ node c4) as [r c5].
  simpl in E. subst r. simpl. eauto.
Qed.

Lemma placement_path_never_returns_nil_witness :
  exists e,
    fst (Fleet.DroneReconciler.Reconcile (mkRequest "default" "d2") freeNode)
    = Return (Some e).
Proof.
  eapply (placement_path_never_returns_nil (mkRequest "default" "d2") freeNode _ _
            (Fleet.mkDrone (objectMeta "default" "d2") false));
    vm_compute; reflexivity.
Defined.

(** The reconciliation of a Drone without a pod, on a store that answers
    every call, up to the loop over the machines. *)
Lemma Reconcile_reaches_placement (req : Request) (s : Fleet.Cluster)
    (cs : list Call) (Drone : Fleet.Drone) :
  lookup (ReqNamespace req) (ReqName req) (Fleet.drones s) = Some Drone ->
  lookup (Namespace (Fleet.DroneMeta Drone)) (Name (Fleet.DroneMeta Drone))
    (Fleet.pods s) = None ->
  Fleet.DroneReconciler.Reconcile req (mkClient s [] cs)
  = (o <- forRange
            (filter (fun n => MatchingLabel "node-role.kubernetes.io/drone" "drone"
                                (Fleet.NodeMeta n)) (Fleet.nodes s))
            (Fleet.DroneReconciler.placeBody Drone (Some NotFound)
               (map Fleet.NodeName
                  (filter (InNamespace (Namespace (Fleet.DroneMeta Drone)))
                     (Fleet.pods s)))) ;;
     match o with
     | Some out => ret out
     | None => ret (Return (Some NotFound))
     end)
      (mkClient s []
         (cs ++ [mkCall VGet KDrone (ReqNamespace req) (ReqName req) None;
                 mkCall VGet KPod (Namespace (Fleet.DroneMeta Drone))
                   (Name (Fleet.DroneMeta Drone)) (Some NotFound);
                 mkCall VList KNode "" "" None;
                 mkCall VList KPod (Namespace (Fleet.DroneMeta Drone)) "" None])).
Proof.
  intros L P. unfold Fleet.DroneReconciler.Reconcile. unfold bind at 1.
  rewrite clientGet_quiet by apply quiet_nil.
  cbn [store faults calls tl]. rewrite L. unfold bind at 1.
  rewrite clientGet_quiet by apply quiet_nil.
  cbn [store faults calls tl]. rewrite P. cbn [errOf IsNotFound].
  unfold bind at 1. rewrite clientList_quiet by apply quiet_nil.
  cbn [store faults calls tl]. unfold bind at 1.
  rewrite clientList_quiet by apply quiet_nil.
  cbn [store faults calls tl]. rewrite <- !app_assoc. reflexivity.
Qed.

(** Placement on a free machine: on a store that answers every call,
    when the Drone has no pod and the first drone-capable machine of the
    listing hosts no pod of the namespace, the reconciliation creates the
    pod built for that machine and sets [Flying]; it then returns the
    not-found of its pod lookup. *)
Theorem placement_on_free_first_node
    (req : Request) (c : Client Fleet.Cluster) (Drone : Fleet.Drone)
    (node : Fleet.Node) (rest : list Fleet.Node) :
  faults c = [] ->
  lookup (ReqNamespace req) (ReqName req) (Fleet.drones (store c)) = Some Drone ->
  lookup (Namespace (Fleet.DroneMeta Drone)) (Name (Fleet.DroneMeta Drone))
    (Fleet.pods (store c)) = None ->
  filter (fun n => MatchingLabel "node-role.kubernetes.io/drone" "drone"
                     (Fleet.NodeMeta n)) (Fleet.nodes (store c)) = node :: rest ->
  stringInSlice (Name (Fleet.NodeMeta node))
    (map Fleet.NodeName
       (filter (InNamespace (Namespace (Fleet.DroneMeta Drone)))
          (Fleet.pods (store c)))) = false ->
  exists c',
    Fleet.DroneReconciler.Reconcile req c = (Return (Some NotFound), c')
    /\ Fleet.pods (store c')
       = Fleet.pods (store c)
         ++ [Fleet.DroneReconciler.buildPod Drone (Name (Fleet.NodeMeta node))]
    /\ Fleet.drones (store c')
       = replace (Fleet.withFlying Drone true) (Fleet.drones (store c))
    /\ Fleet.nodes (store c') = Fleet.nodes (store c)
    /\ Fleet.swarms (store c') = Fleet.swarms (store c)
    /\ writes (calls c')
       = writes (calls c)
         ++ [mkCall VCreate KPod (Namespace (Fleet.DroneMeta Drone))
               (Name (Fleet.DroneMeta Drone)) None;
             mkCall VUpdate KDrone (Namespace (Fleet.DroneMeta Drone))
               (Name (Fleet.DroneMeta Drone)) None].
Proof.
  destruct c as [s fs cs]. simpl. intros -> L P N F.
  rewrite (Reconcile_reaches_placement req s cs Drone L P), N.
  cbn [forRange]. unfold bind at 1. unfold bind at 1.
  unfold Fleet.DroneReconciler.placeBody. rewrite F. cbn [negb].
  unfold bind at 1. rewrite clientCreate_quiet; [|apply quiet_nil|exact P].
  cbn [store faults calls tl]. unfold bind at 1, clientUpdate.
  apply lookup_key in L as L'. destruct L' as (_ & Ln & Lm). simpl meta in Ln, Lm.
  rewrite clientWrite_quiet with (old := Drone);
    [|apply quiet_nil|simpl; rewrite Ln, Lm; exact L].
  eexists. split; [reflexivity|]. simpl.
  repeat split. rewrite !writes_app. simpl.
  now rewrite app_nil_r, <- ?app_assoc.
Qed.

Lemma placement_on_free_first_node_witness :
  exists c',
    Fleet.DroneReconciler.Reconcile (mkRequest "default" "d2") freeNode
      = (Return (Some NotFound), c')
    /\ map Fleet.NodeSelector (Fleet.pods (store c'))
       = [[("kubernetes.io/hostname", "n1")]]
    /\ map Fleet.Flying (Fleet.drones (store c')) = [true].
Proof.
  destruct (placement_on_free_first_node (mkRequest "default" "d2") freeNode
              (Fleet.mkDrone (objectMeta "default" "d2") false)
              (droneNode "n1") [])
    as (c' & Run & Hp & Hd & _); try reflexivity.
  exists c'. split; [exact Run|]. rewrite Hp, Hd. split; reflexivity.
Defined.

(** A taken first machine grounds the Drone: on a store that answers
    every call, when the first drone-capable machine of the listing hosts
    a pod of the namespace, no pod is created whatever the other machines
    are, and the Drone is updated with [Flying = false]. *)
Theorem placement_grounded_by_first_node
    (req : Request) (c : Client Fleet.Cluster) (Drone : Fleet.Drone)
    (node : Fleet.Node) (rest : list Fleet.Node) :
  faults c = [] ->
  lookup (ReqNamespace req) (ReqName req) (Fleet.drones (store c)) = Some Drone ->
  lookup (Namespace (Fleet.DroneMeta Drone)) (Name (Fleet.DroneMeta Drone))
    (Fleet.pods (store c)) = None ->
  filter (fun n => MatchingLabel "node-role.kubernetes.io/drone" "drone"
                     (Fleet.NodeMeta n)) (Fleet.nodes (store c)) = node :: rest ->
  stringInSlice (Name (Fleet.NodeMeta node))
    (map Fleet.NodeName
       (filter (InNamespace (Namespace (Fleet.DroneMeta Drone)))
          (Fleet.pods (store c)))) = true ->
  exists c',
    Fleet.DroneReconciler.Reconcile req c = (Return (Some NotFound), c')
    /\ Fleet.pods (store c') = Fleet.pods (store c)
    /\ Fleet.drones (store c')
       = replace (Fleet.withFlying Drone false) (Fleet.drones (store c))
    /\ writes (calls c')
       = writes (calls c)
         ++ [mkCall VUpdate KDrone (Namespace (Fleet.DroneMeta Drone))
               (Name (Fleet.DroneMeta Drone)) None].
Proof.
  destruct c as [s fs cs]. simpl. intros -> L P N F.
  rewrite (Reconcile_reaches_placement req s cs Drone L P), N.
  cbn [forRange]. unfold bind at 1. unfold bind at 1.
  unfold Fleet.DroneReconciler.placeBody. rewrite F. cbn [negb].
  unfold bind at 1, clientUpdate.
  apply lookup_key in L as L'. destruct L' as (_ & Ln & Lm). simpl meta in Ln, Lm.
  rewrite clientWrite_quiet with (old := Drone);
    [|apply quiet_nil|simpl; rewrite Ln, Lm; exact L].
  eexists. split; [reflexivity|]. simpl.
  repeat split. rewrite !writes_app. simpl.
  now rewrite app_nil_r, <- ?app_assoc.
Qed.

Lemma placement_grounded_witness :
  exists c',
    Fleet.DroneReconciler.Reconcile (mkRequest "default" "d2") firstNodeTaken
      = (Return (Some NotFound), c')
    /\ Fleet.pods (store c') = Fleet.pods (store firstNodeTaken)
    /\ map Fleet.Flying (Fleet.drones (store c')) = [true; false].
Proof.
  destruct (placement_grounded_by_first_node (mkRequest "default" "d2")
              firstNodeTaken (Fleet.mkDrone (objectMeta "default" "d2") false)
              (droneNode "n1") [droneNode "n2"])
    as (c' & Run & Hp & Hd & _); try reflexivity.
  exists c'. split; [exact Run|]. split; [exact Hp|]. rewrite Hd. reflexivity.
Defined.

(** Without a drone-capable machine the loop body never runs: on a
    store that answers every call the reconciliation writes nothing, the
    Drone's [Flying] flag included, and returns the not-found of its pod
    lookup. *)
Theorem placement_without_machines
    (req : Request) (c : Client Fleet.Cluster) (Drone : Fleet.Drone) :
  faults c = [] ->
  lookup (ReqNamespace req) (ReqName req) (Fleet.drones (store c)) = Some Drone ->
  lookup (Namespace (Fleet.DroneMeta Drone)) (Name (Fleet.DroneMeta Drone))
    (Fleet.pods (store c)) = None ->
  filter (fun n => MatchingLabel "node-role.kubernetes.io/drone" "drone"
                     (Fleet.NodeMeta n)) (Fleet.nodes (store c)) = [] ->
  exists c',
    Fleet.DroneReconciler.Reconcile req c = (Return (Some NotFound), c')
    /\ store c' = store c
    /\ writes (calls c') = writes (calls c).
Proof.
  destruct c as [s fs cs]. simpl. intros -> L P N.
  rewrite (Reconcile_reaches_placement req s cs Drone L P), N.
  eexists. split; [reflexivity|]. simpl.
  split; [reflexivity|]. rewrite writes_app. simpl. now rewrite app_nil_r.
Qed.

Lemma placement_without_machines_witness :
  exists c',
    Fleet.DroneReconciler.Reconcile (mkRequest "default" "d2") noNode
      = (Return (Some NotFound), c')
    /\ store c' = store noNode
    /\ writes (calls c') = writes (calls noNode).
Proof.
  apply (placement_without_machines (mkRequest "default" "d2") noNode
           (Fleet.mkDrone (objectMeta "default" "d2") true)); reflexivity.
Defined.

Lemma clientWrite_store {S A : Type} `{KObject A} (k : Kind) (proj : S -> list A)
    (inj : list A -> S -> S) (v : Verb) (merge : A -> A -> A) (x : A)
    (c c' : Client S) (e : option error) :
  clientWrite k proj inj v merge x c = (e, c') ->
  store c' = store c
  \/ exists old, store c' = inj (replace (merge old x) (proj (store c))) (store c).
Proof.
  destruct c as [s fs cs].
  unfold clientWrite, bind, nextFault, getStore, setStore, logCall, ret; simpl.
  destruct fs as [|[f|] fs]; simpl;
    try destruct (lookup _ _ (proj s)) as [old|]; intros [= <- <-]; simpl;
    first [left; reflexivity | right; eexists; reflexivity].
Qed.

(** Whatever the store answers, a reconciliation leaves the pods as
    they were or adds exactly one: the pod built for the Drone on a
    machine that carries the drone role and hosts no pod of the Drone's
    namespace.  It never deletes or rewrites a pod, and never places a
    Drone on a machine it saw occupied. *)
Theorem placement_adds_one_pod_on_a_free_machine
    (req : Request) (c c' : Client Fleet.Cluster) (o : Outcome) :
  Fleet.DroneReconciler.Reconcile req c = (o, c') ->
  Fleet.pods (store c') = Fleet.pods (store c)
  \/ exists Drone node,
       lookup (ReqNamespace req) (ReqName req) (Fleet.drones (store c)) = Some Drone
       /\ In node (Fleet.nodes (store c))
       /\ MatchingLabel "node-role.kubernetes.io/drone" "drone"
            (Fleet.NodeMeta node) = true
       /\ stringInSlice (Name (Fleet.NodeMeta node))
            (map Fleet.NodeName
               (filter (InNamespace (Namespace (Fleet.DroneMeta Drone)))
                  (Fleet.pods (store c)))) = false
       /\ Fleet.pods (store c')
          = Fleet.pods (store c)
            ++ [Fleet.DroneReconciler.buildPod Drone (Name (Fleet.NodeMeta node))].
Proof.
  unfold Fleet.DroneReconciler.Reconcile. unfold bind at 1.
  destruct (clientGet _ _ _ _ c) as [[e|Drone] c1] eqn:G.
  { apply clientGet_frame in G as [Gs _]. unfold ret. intros [= <- <-].
    left. congruence. }
  apply clientGet_found in G as Gf. apply clientGet_frame in G as [Gs _].
  unfold bind at 1.
  destruct (clientGet _ _ _ _ c1) as [r c2] eqn:P.
  apply clientGet_frame in P as [Ps _].
  destruct (IsNotFound (errOf r)).
  2:{ destruct (errOf r); unfold ret; intros [= <- <-]; left; congruence. }
  unfold bind at 1.
  destruct (clientList _ _ _ _ c2) as [[e|dronenodes] c3] eqn:Ln.
  { apply clientList_frame in Ln as [Ls _]. unfold ret. intros [= <- <-].
    left. congruence. }
  apply clientList_items in Ln as En. apply clientList_frame in Ln as [Ls _].
  unfold bind at 1.
  destruct (clientList _ _ _ _ c3) as [[e|dronepods] c4] eqn:Lp.
  { apply clientList_frame in Lp as [Ls' _]. unfold ret. intros [= <- <-].
    left. congruence. }
  apply clientList_items in Lp as Ep. apply clientList_frame in Lp as [Ls' _].
  assert (S4 : store c4 = store c) by congruence.
  rewrite Ls, Ps, Gs in Ep. rewrite Ps, Gs in En.
  unfold bind at 1.
  destruct dronenodes as [|node rest].
  { cbn [forRange]. unfold ret at 1.
    destruct (errOf r); unfold ret; intros [= <- <-]; left; congruence. }
  cbn [forRange]. unfold bind at 1.
  unfold Fleet.DroneReconciler.placeBody at 1.
  destruct (stringInSlice (Name (Fleet.NodeMeta node))
              (map Fleet.NodeName dronepods)) eqn:F; cbn [negb].
  - (* the machine is taken *)
    unfold bind at 1.
    destruct (clientUpdate _ _ _ _ c4) as [u c5] eqn:Up.
    unfold clientUpdate in Up.
    apply clientWrite_store in Up.
    assert (P5 : Fleet.pods (store c5) = Fleet.pods (store c)).
    { destruct Up as [-> | [old ->]]; simpl; congruence. }
    destruct (errOf r); unfold ret; intros [= <- <-]; left; exact P5.
  - (* the machine is free *)
    unfold bind at 1.
    destruct (clientCreate _ _ _ _ c4) as [[e|] c5] eqn:Cr.
    + apply clientCreate_store in Cr as St. unfold ret. intros [= <- <-].
      destruct St as [-> | ->]; [left; congruence|].
      right. exists Drone, node.
      assert (In node (filter
                (fun n => MatchingLabel "node-role.kubernetes.io/drone" "drone"
                            (Fleet.NodeMeta n)) (Fleet.nodes (store c))))
        as I by (rewrite <- En; now left).
      apply filter_In in I as [I M]. rewrite Ep in F.
      repeat split; auto. simpl. now rewrite S4.
    + apply clientCreate_store in Cr as St.
      unfold bind at 1.
      destruct (clientUpdate _ _ _ _ c5) as [u c6] eqn:Up.
      unfold clientUpdate in Up. apply clientWrite_store in Up.
      assert (P6 : Fleet.pods (store c6) = Fleet.pods (store c5)).
      { destruct Up as [-> | [old ->]]; reflexivity. }
      assert (Fin : Fleet.pods (store c6) = Fleet.pods (store c)
                    \/ Fleet.pods (store c6)
                       = Fleet.pods (store c)
                         ++ [Fleet.DroneReconciler.buildPod Drone
                               (Name (Fleet.NodeMeta node))]).
      { rewrite P6. destruct St as [-> | ->]; [left; congruence|].
        right. simpl. now rewrite S4. }
      assert (Goal_ :
        Fleet.pods (store c6) = Fleet.pods (store c)
        \/ exists Drone0 node0,
             lookup (ReqNamespace req) (ReqName req) (Fleet.drones (store c))
               = Some Drone0
             /\ In node0 (Fleet.nodes (store c))
             /\ MatchingLabel "node-role.kubernetes.io/drone" "drone"
                  (Fleet.NodeMeta node0) = true
             /\ stringInSlice (Name (Fleet.NodeMeta node0))
                  (map Fleet.NodeName
                     (filter (InNamespace (Namespace (Fleet.DroneMeta Drone0)))
                        (Fleet.pods (store c)))) = false
             /\ Fleet.pods (store c6)
                = Fleet.pods (store c)
                  ++ [Fleet.DroneReconciler.buildPod Drone0
                        (Name (Fleet.NodeMeta node0))]).
      { destruct Fin as [Fin|Fin]; [now left|]. right. exists Drone, node.
        assert (In node (filter
                  (fun n => MatchingLabel "node-role.kubernetes.io/drone" "drone"
                              (Fleet.NodeMeta n)) (Fleet.nodes (store c))))
          as I by (rewrite <- En; now left).
        apply filter_In in I as [I M]. rewrite Ep in F.
        repeat split; auto. }
      destruct (errOf r); unfold ret; intros [= <- <-]; exact Goal_.
Qed.

Lemma placement_adds_one_pod_witness :
  let run := Fleet.DroneReconciler.Reconcile (mkRequest "default" "d2")
               failingPlacementUpdate in
  Fleet.pods (store (snd run)) = Fleet.pods (store failingPlacementUpdate)
  \/ exists Drone node,
       lookup "default" "d2" (Fleet.drones (store failingPlacementUpdate))
         = Some Drone
       /\ In node (Fleet.nodes (store failingPlacementUpdate))
       /\ MatchingLabel "node-role.kubernetes.io/drone" "drone"
            (Fleet.NodeMeta node) = true
       /\ stringInSlice (Name (Fleet.NodeMeta node))
            (map Fleet.NodeName
               (filter (InNamespace (Namespace (Fleet.DroneMeta Drone)))
                  (Fleet.pods (store failingPlacementUpdate)))) = false
       /\ Fleet.pods (store (snd run))
          = Fleet.pods (store failingPlacementUpdate)
            ++ [Fleet.DroneReconciler.buildPod Drone (Name (Fleet.NodeMeta node))].
Proof.
  intros run.
  apply (placement_adds_one_pod_on_a_free_machine (mkRequest "default" "d2")
           failingPlacementUpdate (snd run) (fst run)).
  apply surjective_pairing.
Defined.

(** ** The Swarm reconciler *)

(** A negative desired count over an empty listing: the second comparison
    holds and [drones.Items[0]] is read from an empty slice.  The
    invocation panics, after the fetch and the listing and before any
    write. *)
Theorem swarm_negative_count_on_empty_listing_panics
    (randomName : string) (req : Request) (c c1 c2 : Client Fleet.Cluster)
    (swarm : Fleet.Swarm) (howmany : Z) :
  clientGet KSwarm Fleet.swarms (ReqNamespace req) (ReqName req) c
    = (inr swarm, c1) ->
  clientList KDrone Fleet.drones "" (fun _ => true) c1 = (inr [], c2) ->
  Fleet.HowMany swarm = Some howmany ->
  (howmany < 0)%Z ->
  Fleet.SwarmReconciler.Reconcile randomName req c = (Panic, c2)
  /\ store c2 = store c.
Proof.
  intros G L H N. split.
  - unfold Fleet.SwarmReconciler.Reconcile, bind. rewrite G, L, H.
    change (to_int32 (Z.of_nat (length (@nil Fleet.Drone)))) with 0%Z.
    assert (E1 : (0 <? howmany)%Z = false) by (apply Z.ltb_ge; lia).
    assert (E2 : (0 >? howmany)%Z = true) by (apply Z.gtb_lt; lia).
    rewrite E1. unfold ret at 1. rewrite E2. reflexivity.
  - apply clientGet_frame in G as [Gs _]. apply clientList_frame in L as [Ls _].
    congruence.
Qed.

Lemma swarm_negative_count_witness :
  exists c2,
    Fleet.SwarmReconciler.Reconcile "busy_bee" (mkRequest "a" "fleet")
      negativeSwarm = (Panic, c2)
    /\ store c2 = store negativeSwarm.
Proof.
  eexists.
  eapply (swarm_negative_count_on_empty_listing_panics "busy_bee"
            (mkRequest "a" "fleet") negativeSwarm _ _
            (Fleet.mkSwarm (objectMeta "a" "fleet") (Some (-1)%Z) 0) (-1));
    [vm_compute; reflexivity | vm_compute; reflexivity | reflexivity | lia].
Defined.

(** Scale-up on a store that answers every call: with fewer Drones
    listed than desired and the generated name free in the request's
    namespace, one invocation appends one Drone of that name, with no
    other field set, and records the new length of the listing in the
    Swarm. *)
Theorem swarm_scale_up_adds_one_drone
    (randomName : string) (req : Request) (c : Client Fleet.Cluster)
    (swarm : Fleet.Swarm) (howmany : Z) :
  faults c = [] ->
  lookup (ReqNamespace req) (ReqName req) (Fleet.swarms (store c)) = Some swarm ->
  Fleet.HowMany swarm = Some howmany ->
  (to_int32 (Z.of_nat (length (Fleet.drones (store c)))) < howmany)%Z ->
  lookup (ReqNamespace req) (Fleet.SwarmReconciler.ReplaceAll randomName)
    (Fleet.drones (store c)) = None ->
  exists c',
    Fleet.SwarmReconciler.Reconcile randomName req c = (Return None, c')
    /\ Fleet.drones (store c')
       = Fleet.drones (store c)
         ++ [Fleet.mkDrone
               (mkObjectMeta (Fleet.SwarmReconciler.ReplaceAll randomName)
                  (ReqNamespace req) [] []) false]
    /\ Fleet.swarms (store c')
       = replace
           (Fleet.withFlyingDrones swarm
              (to_int32 (Z.of_nat (S (length (Fleet.drones (store c)))))))
           (Fleet.swarms (store c))
    /\ writes (calls c')
       = writes (calls c)
         ++ [mkCall VCreate KDrone (ReqNamespace req)
               (Fleet.SwarmReconciler.ReplaceAll randomName) None;
             mkCall VUpdate KSwarm (ReqNamespace req) (ReqName req) None].
Proof.
  destruct c as [[sw dr po no] fs cs]. simpl. intros -> L H Lt Free.
  unfold Fleet.SwarmReconciler.Reconcile. unfold bind at 1.
  rewrite clientGet_quiet by apply quiet_nil.
  cbn [store faults calls tl Fleet.swarms]. rewrite L. unfold bind at 1.
  rewrite clientList_quiet by apply quiet_nil.
  cbn [store faults calls tl Fleet.drones].
  rewrite filter_all by reflexivity. rewrite H.
  apply Z.ltb_lt in Lt as Lb. rewrite Lb.
  assert (Gt : (to_int32 (Z.of_nat (length dr)) >? howmany)%Z = false)
    by (rewrite Z.gtb_ltb; apply Z.ltb_ge; lia).
  rewrite Gt. unfold bind at 1.
  rewrite clientCreate_quiet; [|apply quiet_nil|exact Free].
  cbn [store faults calls tl Fleet.drones Fleet.setDrones Fleet.swarms
       Fleet.pods Fleet.nodes].
  unfold bind at 1. unfold ret at 1. cbn [negb]. unfold bind at 1.
  rewrite clientList_quiet by apply quiet_nil.
  cbn [store faults calls tl Fleet.drones].
  rewrite filter_all by reflexivity.
  apply lookup_key in L as L'. destruct L' as (_ & Ln & Lm). simpl meta in Ln, Lm.
  unfold bind, clientUpdate.
  rewrite clientWrite_quiet with (old := swarm);
    [|apply quiet_nil|simpl; rewrite Ln, Lm; exact L].
  eexists. split; [reflexivity|]. simpl.
  rewrite length_app, Nat.add_1_r, Ln, Lm. repeat split.
  rewrite !writes_app. simpl. now rewrite !app_nil_r, <- ?app_assoc.
Qed.

Lemma swarm_scale_up_witness :
  exists c',
    Fleet.SwarmReconciler.Reconcile "busy_bee" (mkRequest "a" "fleet") wantsThree
      = (Return None, c')
    /\ map (fun d => Name (Fleet.DroneMeta d)) (Fleet.drones (store c'))
       = ["busy-bee"]
    /\ map Fleet.FlyingDrones (Fleet.swarms (store c')) = [1%Z].
Proof.
  destruct (swarm_scale_up_adds_one_drone "busy_bee" (mkRequest "a" "fleet")
              wantsThree (Fleet.mkSwarm (objectMeta "a" "fleet") (Some 3%Z) 0) 3)
    as (c' & Run & Hd & Hs & _); try reflexivity.
  exists c'. split; [exact Run|]. rewrite Hd, Hs. split; reflexivity.
Defined.

(** A create that fails ends the invocation: its error is returned, no
    call follows it, and the Swarm's status is not touched.  A
    generated name that is already taken is such a failure. *)
Theorem swarm_create_failure_is_returned
    (randomName : string) (req : Request) (c c1 c2 c3 : Client Fleet.Cluster)
    (swarm : Fleet.Swarm) (items : list Fleet.Drone) (howmany : Z) (e : error) :
  clientGet KSwarm Fleet.swarms (ReqNamespace req) (ReqName req) c
    = (inr swarm, c1) ->
  clientList KDrone Fleet.drones "" (fun _ => true) c1 = (inr items, c2) ->
  Fleet.HowMany swarm = Some howmany ->
  (to_int32 (Z.of_nat (length items)) < howmany)%Z ->
  clientCreate KDrone Fleet.drones Fleet.setDrones
    (Fleet.mkDrone
       (mkObjectMeta (Fleet.SwarmReconciler.ReplaceAll randomName)
          (ReqNamespace req) [] []) false) c2 = (Some e, c3) ->
  Fleet.SwarmReconciler.Reconcile randomName req c = (Return (Some e), c3)
  /\ calls c3
     = calls c
       ++ [mkCall VGet KSwarm (ReqNamespace req) (ReqName req) None;
           mkCall VList KDrone "" "" None;
           mkCall VCreate KDrone (ReqNamespace req)
             (Fleet.SwarmReconciler.ReplaceAll randomName) (Some e)].
Proof.
  intros G L H Lt Cr. split.
  - unfold Fleet.SwarmReconciler.Reconcile, bind. rewrite G, L, H.
    apply Z.ltb_lt in Lt. rewrite Lt, Cr. reflexivity.
  - apply clientGet_frame in G as [_ Gc]. apply clientList_frame in L as [_ Lc].
    apply clientCreate_log in Cr. rewrite Cr, Lc, Gc. simpl.
    now rewrite <- !app_assoc.
Qed.

Lemma swarm_create_failure_witness :
  exists c3,
    Fleet.SwarmReconciler.Reconcile "busy_bee" (mkRequest "a" "fleet") nameTaken
      = (Return (Some AlreadyExists), c3)
    /\ store c3 = store nameTaken.
Proof.
  eexists. split.
  - eapply (swarm_create_failure_is_returned "busy_bee" (mkRequest "a" "fleet")
              nameTaken _ _ _ (Fleet.mkSwarm (objectMeta "a" "fleet") (Some 3%Z) 0)
              [Fleet.mkDrone (objectMeta "a" "busy-bee") false] 3 AlreadyExists);
      [vm_compute; reflexivity | vm_compute; reflexivity | reflexivity
      | vm_compute; reflexivity | vm_compute; reflexivity].
  - reflexivity.
Defined.

Lemma remove_head {A : Type} `{KObject A} (x : A) (l : list A) :
  uniqueKeys (x :: l) ->
  remove (Namespace (meta x)) (Name (meta x)) (x :: l) = l.
Proof.
  intros U. unfold remove. cbn [filter]. rewrite hasKey_self. cbn [negb].
  apply filter_all. intros y I. apply negb_true_iff, not_true_iff_false.
  intros K. apply hasKey_true in K as [K1 K2].
  inversion U as [|? ? N _]; subst. apply N.
  rewrite <- K1, <- K2.
  now apply (in_map (fun x => (Namespace (meta x), Name (meta x)))).
Qed.

(** Scale-down on a store that answers every call: with more Drones
    listed than desired, one Drone per key, and the first listed Drone
    living in the request's namespace, one invocation removes that first
    Drone and no other, and records the remaining number in the Swarm. *)
Theorem swarm_scale_down_removes_first_listed
    (randomName : string) (req : Request) (c : Client Fleet.Cluster)
    (swarm : Fleet.Swarm) (howmany : Z) (first : Fleet.Drone)
    (rest : list Fleet.Drone) :
  faults c = [] ->
  lookup (ReqNamespace req) (ReqName req) (Fleet.swarms (store c)) = Some swarm ->
  Fleet.HowMany swarm = Some howmany ->
  Fleet.drones (store c) = first :: rest ->
  uniqueKeys (Fleet.drones (store c)) ->
  Namespace (Fleet.DroneMeta first) = ReqNamespace req ->
  (to_int32 (Z.of_nat (length (Fleet.drones (store c)))) > howmany)%Z ->
  exists c',
    Fleet.SwarmReconciler.Reconcile randomName req c = (Return None, c')
    /\ Fleet.drones (store c') = rest
    /\ Fleet.swarms (store c')
       = replace (Fleet.withFlyingDrones swarm (to_int32 (Z.of_nat (length rest))))
           (Fleet.swarms (store c))
    /\ writes (calls c')
       = writes (calls c)
         ++ [mkCall VDelete KDrone (ReqNamespace req)
               (Name (Fleet.DroneMeta first)) None;
             mkCall VUpdate KSwarm (ReqNamespace req) (ReqName req) None].
Proof.
  destruct c as [[sw dr po no] fs cs]. simpl. intros -> L H -> U Ns Gt.
  unfold Fleet.SwarmReconciler.Reconcile. unfold bind at 1.
  rewrite clientGet_quiet by apply quiet_nil.
  cbn [store faults calls tl Fleet.swarms]. rewrite L. unfold bind at 1.
  rewrite clientList_quiet by apply quiet_nil.
  cbn [store faults calls tl Fleet.drones].
  rewrite filter_all by reflexivity. rewrite H.
  assert (Lb : (to_int32 (Z.of_nat (length (first :: rest))) <? howmany)%Z = false)
    by (apply Z.ltb_ge; lia).
  rewrite Z.gtb_ltb.
  rewrite Lb. unfold bind at 1. unfold ret at 1.
  replace (howmany <? to_int32 (Z.of_nat (length (first :: rest))))%Z with true
    by (symmetry; apply Z.ltb_lt; lia).
  unfold bind at 1. unfold bind at 1.
  assert (Lf : lookup (ReqNamespace req) (Name (Fleet.DroneMeta first))
                 (first :: rest) = Some first).
  { pose proof (@hasKey_self _ Fleet.Drone_KObject first) as K.
    simpl meta in K. unfold lookup. cbn [find]. rewrite <- Ns. now rewrite K. }
  rewrite clientDelete_quiet with (x := first); [|apply quiet_nil|exact Lf].
  cbn [store faults calls tl Fleet.drones Fleet.setDrones Fleet.swarms
       Fleet.pods Fleet.nodes].
  rewrite <- Ns.
  pose proof (@remove_head _ Fleet.Drone_KObject first rest U) as Rm.
  simpl meta in Rm. rewrite Rm. clear Rm. rewrite ?Ns.
  unfold ret at 1. cbn [negb]. unfold bind at 1.
  rewrite clientList_quiet by apply quiet_nil.
  cbn [store faults calls tl Fleet.drones].
  rewrite filter_all by reflexivity.
  apply lookup_key in L as L'. destruct L' as (_ & Ln & Lm). simpl meta in Ln, Lm.
  unfold bind, clientUpdate.
  rewrite clientWrite_quiet with (old := swarm);
    [|apply quiet_nil|simpl; rewrite Ln, Lm; exact L].
  eexists. split; [reflexivity|]. simpl.
  rewrite Ln, Lm. repeat split.
  rewrite !writes_app. simpl. now rewrite !app_nil_r, <- ?app_assoc.
Qed.

Lemma fourForOne_uniqueKeys : uniqueKeys (Fleet.drones (store fourForOne)).
Proof.
  unfold uniqueKeys. cbn.
  repeat constructor; cbn; intuition discriminate.
Qed.

Lemma swarm_scale_down_witness :
  exists c',
    Fleet.SwarmReconciler.Reconcile "busy_bee" (mkRequest "a" "fleet") fourForOne
      = (Return None, c')
    /\ map (fun d => Name (Fleet.DroneMeta d)) (Fleet.drones (store c'))
       = ["d2"; "d3"; "d4"]
    /\ map Fleet.FlyingDrones (Fleet.swarms (store c')) = [3%Z].
Proof.
  destruct (swarm_scale_down_removes_first_listed "busy_bee"
              (mkRequest "a" "fleet") fourForOne
              (Fleet.mkSwarm (objectMeta "a" "fleet") (Some 1%Z) 0) 1
              (Fleet.mkDrone (objectMeta "a" "d1") false)
              (map (fun n => Fleet.mkDrone (objectMeta "a" n) false)
                 ["d2"; "d3"; "d4"]))
    as (c' & Run & Hd & Hs & _);
    [reflexivity | reflexivity | reflexivity | reflexivity
    | exact fourForOne_uniqueKeys | reflexivity | reflexivity |].
  exists c'. split; [exact Run|]. rewrite Hd, Hs. split; reflexivity.
Defined.

(** At the desired count, on a store that answers every call, an
    invocation creates and deletes nothing: its one write republishes
    the count, which is the desired one. *)
Theorem swarm_at_desired_count_only_republishes
    (randomName : string) (req : Request) (c : Client Fleet.Cluster)
    (swarm : Fleet.Swarm) (howmany : Z) :
  faults c = [] ->
  lookup (ReqNamespace req) (ReqName req) (Fleet.swarms (store c)) = Some swarm ->
  Fleet.HowMany swarm = Some howmany ->
  to_int32 (Z.of_nat (length (Fleet.drones (store c)))) = howmany ->
  exists c',
    Fleet.SwarmReconciler.Reconcile randomName req c = (Return None, c')
    /\ Fleet.drones (store c') = Fleet.drones (store c)
    /\ Fleet.swarms (store c')
       = replace (Fleet.withFlyingDrones swarm howmany) (Fleet.swarms (store c))
    /\ writes (calls c')
       = writes (calls c)
         ++ [mkCall VUpdate KSwarm (ReqNamespace req) (ReqName req) None].
Proof.
  destruct c as [[sw dr po no] fs cs]. simpl. intros -> L H E.
  unfold Fleet.SwarmReconciler.Reconcile. unfold bind at 1.
  rewrite clientGet_quiet by apply quiet_nil.
  cbn [store faults calls tl Fleet.swarms]. rewrite L. unfold bind at 1.
  rewrite clientList_quiet by apply quiet_nil.
  cbn [store faults calls tl Fleet.drones].
  rewrite filter_all by reflexivity. rewrite H, E.
  rewrite Z.ltb_irrefl, Z.gtb_ltb, Z.ltb_irrefl.
  unfold bind at 1. unfold ret at 1. unfold bind at 1. unfold ret at 1.
  cbn [negb]. unfold bind at 1.
  rewrite clientList_quiet by apply quiet_nil.
  cbn [store faults calls tl Fleet.drones].
  rewrite filter_all by reflexivity. rewrite E.
  apply lookup_key in L as L'. destruct L' as (_ & Ln & Lm). simpl meta in Ln, Lm.
  unfold bind, clientUpdate.
  rewrite clientWrite_quiet with (old := swarm);
    [|apply quiet_nil|simpl; rewrite Ln, Lm; exact L].
  eexists. split; [reflexivity|]. simpl.
  rewrite Ln, Lm. repeat split.
  rewrite !writes_app. simpl. now rewrite !app_nil_r, <- ?app_assoc.
Qed.

Lemma swarm_at_desired_count_witness :
  exists c',
    Fleet.SwarmReconciler.Reconcile "busy_bee" (mkRequest "a" "fleet")
      twoNamespaces = (Return None, c')
    /\ Fleet.drones (store c') = Fleet.drones (store twoNamespaces)
    /\ map Fleet.FlyingDrones (Fleet.swarms (store c')) = [2%Z].
Proof.
  destruct (swarm_at_desired_count_only_republishes "busy_bee"
              (mkRequest "a" "fleet") twoNamespaces
              (Fleet.mkSwarm (objectMeta "a" "fleet") (Some 2%Z) 0) 2)
    as (c' & Run & Hd & Hs & _); try reflexivity.
  exists c'. split; [exact Run|]. split; [exact Hd|]. rewrite Hs. reflexivity.
Defined.

(** The name given to a new Drone: [ReplaceAll] keeps the length of the
    generated name, leaves no underscore in it, changes no other
    character, and a second application changes nothing. *)
Theorem generated_name_has_no_underscore (s : string) :
  String.length (Fleet.SwarmReconciler.ReplaceAll s) = String.length s
  /\ (forall n, String.get n (Fleet.SwarmReconciler.ReplaceAll s) <> Some "_"%char)
  /\ (forall n ch, String.get n s = Some ch -> ch <> "_"%char ->
                   String.get n (Fleet.SwarmReconciler.ReplaceAll s) = Some ch)
  /\ Fleet.SwarmReconciler.ReplaceAll (Fleet.SwarmReconciler.ReplaceAll s)
     = Fleet.SwarmReconciler.ReplaceAll s.
Proof.
  induction s as [|ch s (IHl & IHn & IHk & IHi)].
  - repeat split; try reflexivity; intros; discriminate.
  - cbn [Fleet.SwarmReconciler.ReplaceAll]. repeat split.
    + simpl. now rewrite IHl.
    + intros [|n]; simpl; [|apply IHn].
      destruct (Ascii.eqb ch "_") eqn:E; [discriminate|].
      apply Ascii.eqb_neq in E. congruence.
    + intros [|n] x; simpl; [|apply IHk].
      intros [= ->] Ne. apply Ascii.eqb_neq in Ne. now rewrite Ne.
    + rewrite IHi. f_equal.
      destruct (Ascii.eqb ch "_") eqn:E; [reflexivity|]. now rewrite E.
Qed.

(** ** The replica-counted reconciler, further *)

(** Whatever the store answers, a garbage-collection pass removes
    nothing but stale sets: with one deployment per key, every deployment
    that is not stale for the Drone (the canonical set, the sets of other
    owners and of other namespaces) is still there afterwards, nothing is
    added, and the Drones are untouched. *)
Theorem garbage_collection_spares_the_rest
    (Drone : Replica.Drone) (c c' : Client Replica.Cluster) (r : option error) :
  uniqueKeys (Replica.deployments (store c)) ->
  Replica.cleanupOwnedResources Drone c = (r, c') ->
  Replica.drones (store c') = Replica.drones (store c)
  /\ (forall d, In d (Replica.deployments (store c')) ->
                In d (Replica.deployments (store c)))
  /\ (forall d, In d (Replica.deployments (store c)) ->
                GC.stale Drone d = false ->
                In d (Replica.deployments (store c'))).
Proof.
  intros U. unfold Replica.cleanupOwnedResources, bind.
  destruct (clientList _ _ _ _ c) as [[e|items] c1] eqn:L.
  { apply clientList_frame in L as [Ls _]. unfold ret. intros [= <- <-].
    rewrite Ls. auto. }
  apply clientList_items in L as Ei. apply clientList_frame in L as [Ls _].
  assert (Hi : forall x, In x items ->
                 Replica.ownedBy Drone x = true
                 /\ In x (Replica.deployments (store c))).
  { intros x I. rewrite Ei in I. apply filter_In in I. tauto. }
  assert (Inv : Replica.drones (store c1) = Replica.drones (store c)
                /\ (forall d, In d (Replica.deployments (store c1)) ->
                              In d (Replica.deployments (store c)))
                /\ (forall d, In d (Replica.deployments (store c)) ->
                              GC.stale Drone d = false ->
                              In d (Replica.deployments (store c1))))
    by (rewrite Ls; auto).
  clear Ei Ls. revert c1 Inv.
  induction items as [|x items IH]; intros c1 Inv.
  - simpl. unfold ret. intros [= <- <-]. exact Inv.
  - cbn [forRange]. unfold bind at 1. unfold Replica.cleanupBody at 1.
    destruct (Name (Replica.DeploymentMeta x) =? "mydrones") eqn:E.
    + unfold ret at 1. apply IH; [|exact Inv].
      intros y I. apply Hi. now right.
    + unfold bind at 1.
      destruct (clientDelete _ _ _ _ _ c1) as [e c2] eqn:Del.
      apply clientDelete_store in Del.
      assert (Inv2 : Replica.drones (store c2) = Replica.drones (store c)
                     /\ (forall d, In d (Replica.deployments (store c2)) ->
                                   In d (Replica.deployments (store c)))
                     /\ (forall d, In d (Replica.deployments (store c)) ->
                                   GC.stale Drone d = false ->
                                   In d (Replica.deployments (store c2)))).
      { destruct Inv as (Id & Isub & Ikeep).
        destruct Del as [-> | ->]; [auto|]. simpl. repeat split; [exact Id| |].
        - intros d I. apply filter_In in I as [I _]. auto.
        - intros d I Ns. apply filter_In. split; [auto|].
          apply negb_true_iff, not_true_iff_false. intros K.
          apply hasKey_true in K as [K1 K2]. simpl meta in K1, K2.
          destruct (Hi x (or_introl eq_refl)) as [Ox Ix].
          assert (d = x) as -> by (apply (uniqueKeys_eq _ _ _ U I Ix); auto).
          unfold GC.stale, GC.staleName in Ns. now rewrite Ox, E in Ns. }
      destruct e as [err|]; unfold ret at 1.
      * intros [= <- <-]. exact Inv2.
      * apply IH; [|exact Inv2]. intros y I. apply Hi. now right.
Qed.

Lemma garbage_collection_spares_witness :
  let run := Replica.cleanupOwnedResources (replicaDrone (Some 2%Z) 0)
               threeOwnedFailing in
  Replica.drones (store (snd run)) = Replica.drones (store threeOwnedFailing)
  /\ (forall d, In d (Replica.deployments (store (snd run))) ->
                In d (Replica.deployments (store threeOwnedFailing)))
  /\ (forall d, In d (Replica.deployments (store threeOwnedFailing)) ->
                GC.stale (replicaDrone (Some 2%Z) 0) d = false ->
                In d (Replica.deployments (store (snd run)))).
Proof.
  intros run.
  apply (garbage_collection_spares_the_rest (replicaDrone (Some 2%Z) 0)
           threeOwnedFailing (snd run) (fst run)).
  - exact threeOwned_uniqueKeys.
  - apply surjective_pairing.
Defined.

(** Two passes in a row, on a store that answers every call and holds
    one deployment per key: the second pass finds nothing to delete and
    leaves the cluster as the first one left it. *)
Theorem garbage_collection_is_idempotent
    (Drone : Replica.Drone) (c c1 c2 : Client Replica.Cluster)
    (r1 r2 : option error) :
  faults c = [] ->
  uniqueKeys (Replica.deployments (store c)) ->
  Replica.cleanupOwnedResources Drone c = (r1, c1) ->
  Replica.cleanupOwnedResources Drone c1 = (r2, c2) ->
  r2 = None
  /\ store c2 = store c1
  /\ calls c2
     = calls c1
       ++ [mkCall VList KDeployment (Namespace (Replica.DroneMeta Drone)) "" None].
Proof.
  destruct c as [[dr D] fs cs]. simpl. intros -> U Run1 Run2.
  rewrite (cleanup_quiet Drone dr D cs U) in Run1. injection Run1 as <- <-.
  rewrite cleanup_noop in Run2.
  - injection Run2 as <- <-. auto.
  - intros x I. apply filter_In in I as [_ I]. now apply negb_true_iff in I.
Qed.

Lemma garbage_collection_idempotent_witness :
  let Drone := replicaDrone (Some 2%Z) 0 in
  let run1 := Replica.cleanupOwnedResources Drone threeOwned in
  let run2 := Replica.cleanupOwnedResources Drone (snd run1) in
  fst run2 = None
  /\ store (snd run2) = store (snd run1)
  /\ calls (snd run2)
     = calls (snd run1) ++ [mkCall VList KDeployment "default" "" None].
Proof.
  intros Drone run1 run2.
  apply (garbage_collection_is_idempotent Drone threeOwned (snd run1) (snd run2)
           (fst run1) (fst run2)).
  - reflexivity.
  - exact threeOwned_uniqueKeys.
  - apply surjective_pairing.
  - apply surjective_pairing.
Defined.

Lemma writes_deleteCalls (l : list Replica.Deployment) :
  writes (map GC.deleteCall l) = map GC.deleteCall l.
Proof.
  apply filter_all. intros x I. apply in_map_iff in I as (y & <- & _).
  reflexivity.
Qed.

(** Creation: on a store that answers every call and holds one
    deployment per key, when the canonical set is absent a pass deletes
    the stale sets, creates the set built for the Drone (it declares the
    Drone's [HowMany] as it is, and carries the controller reference of
    the Drone) and returns nil without touching the Drone. *)
Theorem replica_creates_missing_set
    (req : Request) (c : Client Replica.Cluster) (Drone : Replica.Drone) :
  faults c = [] ->
  uniqueKeys (Replica.deployments (store c)) ->
  lookup (ReqNamespace req) (ReqName req) (Replica.drones (store c)) = Some Drone ->
  lookup (Namespace (Replica.DroneMeta Drone)) "mydrones"
    (Replica.deployments (store c)) = None ->
  exists c',
    Replica.Reconcile req c = (Return None, c')
    /\ Replica.drones (store c') = Replica.drones (store c)
    /\ Replica.deployments (store c')
       = filter (fun x => negb (GC.stale Drone x)) (Replica.deployments (store c))
         ++ [Replica.buildDeployment Drone]
    /\ Replica.Replicas (Replica.DSpec (Replica.buildDeployment Drone))
       = Replica.HowMany (Replica.Spec Drone)
    /\ writes (calls c')
       = writes (calls c)
         ++ map GC.deleteCall
              (filter (GC.stale Drone) (Replica.deployments (store c)))
         ++ [mkCall VCreate KDeployment (Namespace (Replica.DroneMeta Drone))
               "mydrones" None].
Proof.
  destruct c as [[dr D] fs cs]. simpl. intros -> U L G.
  rewrite (Reconcile_quiet req Drone dr D cs U L). unfold Quiet.converge.
  rewrite (lookup_filter_none _ _ _ _ G).
  eexists. split; [reflexivity|]. simpl. repeat split.
  rewrite !writes_app. simpl. now rewrite writes_deleteCalls, <- app_assoc.
Qed.

Lemma replica_creates_missing_set_witness :
  exists c',
    Replica.Reconcile (mkRequest "default" "d") wantsFive = (Return None, c')
    /\ map (fun x => (Name (Replica.DeploymentMeta x),
                      Replica.Replicas (Replica.DSpec x)))
         (Replica.deployments (store c')) = [("mydrones", Some 5%Z)].
Proof.
  destruct (replica_creates_missing_set (mkRequest "default" "d") wantsFive
              (replicaDrone (Some 5%Z) 0))
    as (c' & Run & _ & HD & _);
    [reflexivity | constructor | reflexivity | reflexivity |].
  exists c'. split; [exact Run|]. rewrite HD. reflexivity.
Defined.

(** Status sync: on a store that answers every call and holds one
    deployment per key, when the canonical set declares the expected
    count a pass copies the set's observed replica count into the Drone's
    status, and changes no deployment but the stale ones it deletes. *)
Theorem replica_syncs_observed_count
    (req : Request) (c : Client Replica.Cluster) (Drone : Replica.Drone)
    (depl : Replica.Deployment) :
  faults c = [] ->
  uniqueKeys (Replica.deployments (store c)) ->
  lookup (ReqNamespace req) (ReqName req) (Replica.drones (store c)) = Some Drone ->
  lookup (Namespace (Replica.DroneMeta Drone)) "mydrones"
    (Replica.deployments (store c)) = Some depl ->
  Replica.Replicas (Replica.DSpec depl) = Some (Replica.expectedReplicas Drone) ->
  exists c' Drone',
    Replica.Reconcile req c = (Return None, c')
    /\ lookup (ReqNamespace req) (ReqName req) (Replica.drones (store c'))
       = Some Drone'
    /\ Replica.FlyingDrones (Replica.Status Drone')
       = Replica.StatusReplicas (Replica.DStatus depl)
    /\ Replica.Spec Drone' = Replica.Spec Drone
    /\ Replica.DroneMeta Drone' = Replica.DroneMeta Drone
    /\ Replica.deployments (store c')
       = filter (fun x => negb (GC.stale Drone x)) (Replica.deployments (store c)).
Proof.
  destruct c as [[dr D] fs cs]. simpl. intros -> U L G R.
  rewrite (Reconcile_quiet req Drone dr D cs U L). unfold Quiet.converge.
  apply lookup_key in G as G'. destruct G' as (_ & _ & Gm). simpl meta in Gm.
  rewrite (lookup_filter _ _ _ _ _ G (canonical_not_stale Drone depl Gm)).
  rewrite R, Z.eqb_refl. cbn [negb].
  apply lookup_key in L as L'. destruct L' as (_ & Ln & Lm). simpl meta in Ln, Lm.
  eexists. eexists. split; [reflexivity|]. simpl. split.
  - apply lookup_replace with (old := Drone); auto.
  - repeat split.
Qed.

Lemma replica_syncs_observed_count_witness :
  exists c' Drone',
    Replica.Reconcile (mkRequest "default" "d") threeRunning = (Return None, c')
    /\ lookup "default" "d" (Replica.drones (store c')) = Some Drone'
    /\ Replica.FlyingDrones (Replica.Status Drone') = 3%Z.
Proof.
  destruct (replica_syncs_observed_count (mkRequest "default" "d") threeRunning
              (replicaDrone (Some 3%Z) 0) (canonicalSet (Some 3%Z) 3))
    as (c' & Drone' & Run & Hl & Hf & _);
    [reflexivity | repeat constructor; cbn; tauto | reflexivity | reflexivity
    | reflexivity |].
  exists c', Drone'. split; [exact Run|]. split; [exact Hl|]. rewrite Hf.
  reflexivity.
Defined.

(** A canonical set without a declared replica count: [Reconcile] reads
    [*deployment.Spec.Replicas] without a guard, so once the Drone is
    fetched, the garbage collection has returned nil and the lookup has
    returned such a set, the invocation panics. *)
Theorem replica_undeclared_count_panics
    (req : Request) (c c1 c2 c3 : Client Replica.Cluster)
    (Drone : Replica.Drone) (depl : Replica.Deployment) :
  clientGet KDrone Replica.drones (ReqNamespace req) (ReqName req) c
    = (inr Drone, c1) ->
  Replica.cleanupOwnedResources Drone c1 = (None, c2) ->
  clientGet KDeployment Replica.deployments (Namespace (Replica.DroneMeta Drone))
    "mydrones" c2 = (inr depl, c3) ->
  Replica.Replicas (Replica.DSpec depl) = None ->
  Replica.Reconcile req c = (Panic, c3).
Proof.
  intros G C P R. unfold Replica.Reconcile, bind. now rewrite G, C, P, R.
Qed.

Lemma replica_undeclared_count_witness :
  exists c3,
    Replica.Reconcile (mkRequest "default" "d") undeclaredSet = (Panic, c3).
Proof.
  eexists.
  eapply (replica_undeclared_count_panics (mkRequest "default" "d") undeclaredSet
            _ _ _ (replicaDrone (Some 1%Z) 0) (canonicalSet None 0));
    [vm_compute; reflexivity | vm_compute; reflexivity
    | vm_compute; reflexivity | reflexivity].
Defined.

(** After a pass that returned nil, on a store that answers every call
    and holds one deployment per key, the canonical set exists and
    declares the count the Drone asks for, whenever the Drone sets one:
    the pass created it so, adjusted it, or found it so. *)
Theorem replica_pass_establishes_declared_count
    (req : Request) (c c' : Client Replica.Cluster) (Drone : Replica.Drone)
    (n : Z) :
  faults c = [] ->
  uniqueKeys (Replica.deployments (store c)) ->
  lookup (ReqNamespace req) (ReqName req) (Replica.drones (store c)) = Some Drone ->
  Replica.HowMany (Replica.Spec Drone) = Some n ->
  Replica.Reconcile req c = (Return None, c') ->
  exists depl,
    lookup (Namespace (Replica.DroneMeta Drone)) "mydrones"
      (Replica.deployments (store c')) = Some depl
    /\ Replica.Replicas (Replica.DSpec depl) = Some n.
Proof.
  destruct c as [[dr D] fs cs]. simpl. intros -> U L H.
  rewrite (Reconcile_quiet req Drone dr D cs U L). unfold Quiet.converge.
  assert (E : Replica.expectedReplicas Drone = n)
    by (unfold Replica.expectedReplicas; now rewrite H).
  destruct (lookup _ "mydrones" (filter _ D)) as [depl|] eqn:G.
  - apply lookup_key in G as G'. destruct G' as (_ & Gn & Gm).
    simpl meta in Gn, Gm.
    destruct (Replica.Replicas (Replica.DSpec depl)) as [m|] eqn:R;
      [|discriminate].
    destruct (negb (m =? Replica.expectedReplicas Drone)%Z) eqn:Ne.
    + intros [= <-]. simpl. eexists. split.
      * apply lookup_replace with (old := depl); auto.
      * simpl. now rewrite E.
    + intros [= <-]. simpl. exists depl. split; [exact G|].
      apply negb_false_iff, Z.eqb_eq in Ne. congruence.
  - intros [= <-]. simpl. eexists. split.
    + apply lookup_app_new; [exact G|].
      exact (@hasKey_self _ Replica.Deployment_KObject
               (Replica.buildDeployment Drone)).
    + exact H.
Qed.

Lemma replica_pass_establishes_witness :
  exists depl,
    lookup "default" "mydrones"
      (Replica.deployments
         (store (snd (Replica.Reconcile (mkRequest "default" "d") threeOwned))))
    = Some depl
    /\ Replica.Replicas (Replica.DSpec depl) = Some 2%Z.
Proof.
  apply (replica_pass_establishes_declared_count (mkRequest "default" "d")
           threeOwned
           (snd (Replica.Reconcile (mkRequest "default" "d") threeOwned))
           (replicaDrone (Some 2%Z) 0) 2);
    [reflexivity | exact threeOwned_uniqueKeys | reflexivity | reflexivity
    | reflexivity].
Defined.

(** ** What the call log of a replica-counted pass looks like *)

Lemma countVerb_app (v : Verb) (l l' : list Call) :
  countVerb v (l ++ l') = (countVerb v l + countVerb v l')%nat.
Proof.
  unfold countVerb. now rewrite filter_app, length_app.
Qed.

Lemma countVerb_none (v : Verb) (l : list Call) :
  Forall (fun call => hasVerb v call = false) l -> countVerb v l = 0%nat.
Proof.
  unfold countVerb. induction 1 as [|x l Hx _ IH]; simpl; [reflexivity|].
  now rewrite Hx.
Qed.

Lemma cleanup_loop_log (items : list Replica.Deployment) :
  forall (c c' : Client Replica.Cluster) (r : option error),
  forRange items Replica.cleanupBody c = (r, c') ->
  exists new,
    calls c' = calls c ++ new
    /\ Forall (fun call => verb call = VDelete) new
    /\ (r = None -> Forall (fun call => result call = None) new).
Proof.
  induction items as [|x items IH]; intros c c' r.
  - simpl. unfold ret. intros [= <- <-]. exists [].
    rewrite app_nil_r. auto.
  - cbn [forRange]. unfold bind at 1. unfold Replica.cleanupBody at 1.
    destruct (Name (Replica.DeploymentMeta x) =? "mydrones").
    + unfold ret at 1. apply IH.
    + unfold bind at 1.
      destruct (clientDelete _ _ _ _ _ c) as [e c1] eqn:Del.
      apply clientDelete_log in Del.
      destruct e as [err|]; unfold ret at 1.
      * intros [= <- <-]. eexists. split; [exact Del|].
        split; [repeat constructor | discriminate].
      * intros Run. apply IH in Run as (new & Ec & Fv & Fr).
        eexists. split; [rewrite Ec, Del, <- app_assoc; reflexivity|].
        split; [constructor; [reflexivity|exact Fv]|].
        intros E. constructor; [reflexivity|auto].
Qed.

Lemma cleanup_log (Drone : Replica.Drone) (c c' : Client Replica.Cluster)
    (r : option error) :
  Replica.cleanupOwnedResources Drone c = (r, c') ->
  exists new,
    calls c' = calls c ++ new
    /\ Forall (fun call => verb call = VList \/ verb call = VDelete) new
    /\ (r = None -> Forall (fun call => result call = None) new).
Proof.
  unfold Replica.cleanupOwnedResources, bind.
  destruct (clientList _ _ _ _ c) as [[e|items] c1] eqn:L;
    apply clientList_frame in L as [_ Lc].
  - unfold ret. intros [= <- <-]. eexists. split; [exact Lc|].
    split; [repeat constructor; now left | discriminate].
  - intros Run. apply cleanup_loop_log in Run as (new & Ec & Fv & Fr).
    eexists. split; [rewrite Ec, Lc, <- app_assoc; reflexivity|]. split.
    + constructor; [now left|].
      eapply Forall_impl; [|exact Fv]. intros call V. now right.
    + intros E. constructor; [reflexivity|auto].
Qed.

Lemma collection_calls_are_not_writes_of (v : Verb) (new : list Call) :
  Forall (fun call => verb call = VList \/ verb call = VDelete) new ->
  v = VCreate \/ v = VUpdate \/ v = VStatusUpdate ->
  countVerb v new = 0%nat.
Proof.
  intros Fv Hv. apply countVerb_none.
  eapply Forall_impl; [|exact Fv]. intros call [E|E]; unfold hasVerb; rewrite E;
    destruct Hv as [->|[->| ->]]; reflexivity.
Qed.

Lemma results_none_tolerated (new : list Call) :
  Forall (fun call => result call = None) new -> Forall tolerated new.
Proof.
  intros F. eapply Forall_impl; [|exact F]. intros call E. now left.
Qed.

(** Shape of the log of one pass, whatever the store answers. *)
Lemma replica_log (req : Request) (c c' : Client Replica.Cluster) (o : Outcome) :
  Replica.Reconcile req c = (o, c') ->
  exists new,
    calls c' = calls c ++ new
    /\ (countVerb VCreate new + countVerb VUpdate new
        + countVerb VStatusUpdate new <= 1)%nat
    /\ (o = Return None -> Forall tolerated new).
Proof.
  unfold Replica.Reconcile. unfold bind at 1.
  destruct (clientGet _ _ _ _ c) as [[e|Drone] c1] eqn:G;
    apply clientGet_frame in G as [_ Gc]; cbn [errOf] in Gc.
  { unfold ret. intros [= <- <-]. eexists. split; [exact Gc|].
    split; [cbn; lia|].
    destruct e; unfold IgnoreNotFound; simpl; try discriminate.
    intros _. apply Forall_cons; [right; left; split; reflexivity|].
    apply Forall_nil. }
  unfold bind at 1.
  destruct (Replica.cleanupOwnedResources Drone c1) as [r c2] eqn:C.
  apply cleanup_log in C as (gc & Cc & Fv & Fr). rewrite Gc in Cc.
  pose proof (collection_calls_are_not_writes_of VCreate gc Fv
                (or_introl eq_refl)) as Z1.
  pose proof (collection_calls_are_not_writes_of VUpdate gc Fv
                (or_intror (or_introl eq_refl))) as Z2.
  pose proof (collection_calls_are_not_writes_of VStatusUpdate gc Fv
                (or_intror (or_intror eq_refl))) as Z3.
  destruct r as [err|].
  { unfold ret. intros [= <- <-]. eexists.
    split; [rewrite Cc, <- app_assoc; reflexivity|].
    split; [|discriminate].
    cbn [app]. change (?x :: gc) with ([x] ++ gc).
    rewrite !countVerb_app, Z1, Z2, Z3. cbn. lia. }
  specialize (Fr eq_refl). apply results_none_tolerated in Fr.
  unfold bind at 1.
  destruct (clientGet _ _ _ _ c2) as [[e|depl] c3] eqn:P;
    apply clientGet_frame in P as [_ Pc]; cbn [errOf] in Pc; rewrite Cc in Pc.
  - destruct e as [| |f].
    + (* the set is absent: create *)
      unfold bind at 1.
      destruct (clientCreate _ _ _ _ c3) as [e c4] eqn:Cr.
      apply clientCreate_log in Cr. rewrite Pc in Cr.
      assert (Shape : exists new,
                calls c4 = calls c ++ new
                /\ (countVerb VCreate new + countVerb VUpdate new
                    + countVerb VStatusUpdate new <= 1)%nat
                /\ (e = None -> Forall tolerated new)).
      { eexists. split; [rewrite Cr, <- !app_assoc; reflexivity|]. split.
        - cbn [app]. change (?x :: gc ++ ?t) with ([x] ++ gc ++ t).
          rewrite !countVerb_app, Z1, Z2, Z3. cbn. lia.
        - intros ->. cbn [app]. apply Forall_cons; [left; reflexivity|].
          apply Forall_app. split; [exact Fr|].
          apply Forall_cons; [right; left; split; reflexivity|].
          apply Forall_cons; [left; reflexivity|apply Forall_nil]. }
      destruct Shape as (new & E1 & E2 & E3).
      destruct e; unfold ret; intros [= <- <-]; exists new;
        (split; [exact E1|split; [exact E2|]]); [discriminate|auto].
    + unfold ret. intros [= <- <-]. eexists.
      split; [rewrite Pc, <- !app_assoc; reflexivity|].
      split; [|discriminate].
      cbn [app]. change (?x :: gc ++ ?t) with ([x] ++ gc ++ t).
      rewrite !countVerb_app, Z1, Z2, Z3. cbn. lia.
    + unfold ret. intros [= <- <-]. eexists.
      split; [rewrite Pc, <- !app_assoc; reflexivity|].
      split; [|discriminate].
      cbn [app]. change (?x :: gc ++ ?t) with ([x] ++ gc ++ t).
      rewrite !countVerb_app, Z1, Z2, Z3. cbn. lia.
  - cbv zeta. destruct (Replica.Replicas (Replica.DSpec depl)) as [n|].
    2:{ unfold ret. intros [= <- <-]. eexists.
        split; [rewrite Pc, <- !app_assoc; reflexivity|].
        split; [|discriminate].
        cbn [app]. change (?x :: gc ++ ?t) with ([x] ++ gc ++ t).
        rewrite !countVerb_app, Z1, Z2, Z3. cbn. lia. }
    destruct (negb (n =? Replica.expectedReplicas Drone)%Z).
    + (* adjust the declared count *)
      unfold bind at 1, clientUpdate.
      destruct (clientWrite _ _ _ _ _ _ c3) as [e c4] eqn:Up.
      apply clientWrite_log in Up. rewrite Pc in Up.
      assert (Shape : exists new,
                calls c4 = calls c ++ new
                /\ (countVerb VCreate new + countVerb VUpdate new
                    + countVerb VStatusUpdate new <= 1)%nat
                /\ (e = None -> Forall tolerated new)).
      { eexists. split; [rewrite Up, <- !app_assoc; reflexivity|]. split.
        - cbn [app]. change (?x :: gc ++ ?t) with ([x] ++ gc ++ t).
          rewrite !countVerb_app, Z1, Z2, Z3. cbn. lia.
        - intros ->. cbn [app]. apply Forall_cons; [left; reflexivity|].
          apply Forall_app. split; [exact Fr|].
          apply Forall_cons; [left; reflexivity|].
          apply Forall_cons; [left; reflexivity|apply Forall_nil]. }
      destruct Shape as (new & E1 & E2 & E3).
      destruct e; unfold ret; intros [= <- <-]; exists new;
        (split; [exact E1|split; [exact E2|]]); [discriminate|auto].
    + (* sync the status *)
      unfold bind at 1.
      destruct (clientWrite _ _ _ _ _ _ c3) as [e c4] eqn:Up.
      apply clientWrite_log in Up. rewrite Pc in Up.
      unfold ret. intros [= <- <-]. eexists.
      split; [rewrite Up, <- !app_assoc; reflexivity|]. split.
      * cbn [app]. change (?x :: gc ++ ?t) with ([x] ++ gc ++ t).
        rewrite !countVerb_app, Z1, Z2, Z3. cbn. lia.
      * intros _. cbn [app]. apply Forall_cons; [left; reflexivity|].
        apply Forall_app. split; [exact Fr|].
        apply Forall_cons; [left; reflexivity|].
        apply Forall_cons; [right; right; reflexivity|apply Forall_nil].
Qed.

(** Whatever the store answers, one pass issues at most one write
    besides the deletes of its garbage collection: one create, or one
    update of the set, or one update of the Drone's status. *)
Theorem replica_one_write_besides_deletes
    (req : Request) (c c' : Client Replica.Cluster) (o : Outcome) :
  Replica.Reconcile req c = (o, c') ->
  exists new,
    calls c' = calls c ++ new
    /\ (countVerb VCreate new + countVerb VUpdate new
        + countVerb VStatusUpdate new <= 1)%nat.
Proof.
  intros Run. apply replica_log in Run as (new & E & Hc & _). eauto.
Qed.

Lemma replica_one_write_witness :
  let run := Replica.Reconcile (mkRequest "default" "d") threeOwned in
  exists new,
    calls (snd run) = calls threeOwned ++ new
    /\ (countVerb VCreate new + countVerb VUpdate new
        + countVerb VStatusUpdate new <= 1)%nat.
Proof.
  intros run.
  apply (replica_one_write_besides_deletes (mkRequest "default" "d") threeOwned
           (snd run) (fst run)).
  apply surjective_pairing.
Defined.

(** A nil return vouches for the writes that matter: whatever the store
    answers, when a pass returns nil, every list, delete, create and
    update of the set it issued succeeded; the calls that may have
    failed are a lookup that found nothing and the update of the Drone's
    status. *)
Theorem replica_nil_return_vouches_for_writes
    (req : Request) (c c' : Client Replica.Cluster) :
  Replica.Reconcile req c = (Return None, c') ->
  exists new,
    calls c' = calls c ++ new /\ Forall tolerated new.
Proof.
  intros Run. apply replica_log in Run as (new & E & _ & Ht). eauto.
Qed.

Lemma replica_nil_return_witness :
  exists new,
    calls (snd (Replica.Reconcile (mkRequest "default" "d") failingStatusUpdate))
    = calls failingStatusUpdate ++ new
    /\ Forall tolerated new.
Proof.
  apply (replica_nil_return_vouches_for_writes (mkRequest "default" "d")
           failingStatusUpdate).
  vm_compute. reflexivity.
Defined.

(** ** The named-pod reconciler *)

Lemma named_cleanup_loop_quiet (Drone : Named.Drone) (items : list Named.Pod) :
  forall (dr : list Named.Drone) (P : list Named.Pod) (cs : list Call),
  NoDup (keys items) ->
  (forall x, In x items -> In x P) ->
  let doomed :=
    filter (fun x => negb (Name (Named.PodMeta x)
                           =? Named.SpecName (Named.Spec Drone))) items in
  forRange items (Named.cleanupBody Drone) (mkClient (Named.mkCluster dr P) [] cs)
  = (None,
     mkClient
       (Named.mkCluster dr
          (filter
             (fun d => negb (existsb
                (fun x => hasKey (Namespace (Named.PodMeta x))
                            (Name (Named.PodMeta x)) d) doomed)) P))
       []
       (cs ++ map Named.deleteCall doomed)).
Proof.
  induction items as [|x items IH]; intros dr P cs U Sub.
  - simpl. rewrite app_nil_r. rewrite filter_all; auto.
  - inversion U as [|? ? N U']; subst.
    cbn [forRange]. unfold bind at 1. unfold Named.cleanupBody at 1.
    cbn zeta. cbn [filter].
    destruct (Name (Named.PodMeta x) =? Named.SpecName (Named.Spec Drone)) eqn:E;
      cbn [negb].
    + unfold ret at 1. apply IH; auto. intros y I. apply Sub. now right.
    + destruct (lookup (Namespace (Named.PodMeta x)) (Name (Named.PodMeta x)) P)
        as [y|] eqn:L.
      2:{ exfalso. apply (lookup_In P x); [apply Sub; now left | exact L]. }
      unfold bind.
      rewrite clientDelete_quiet with (x := y); [|apply quiet_nil|exact L].
      cbn [store faults calls tl Named.pods].
      unfold ret at 1, Named.setPods. cbn [Named.drones].
      specialize (IH dr (remove (Namespace (Named.PodMeta x))
                           (Name (Named.PodMeta x)) P)
                    (cs ++ [mkCall VDelete KPod (Namespace (Named.PodMeta x))
                              (Name (Named.PodMeta x)) None]) U').
      cbn zeta in IH. rewrite IH.
      * f_equal. f_equal.
        -- f_equal. unfold remove. rewrite filter_filter.
           apply filter_ext. intros d. cbn [existsb]. simpl meta.
           now rewrite negb_orb.
        -- rewrite <- app_assoc. reflexivity.
      * intros z I. unfold remove. apply filter_In. split.
        -- apply Sub. now right.
        -- apply negb_true_iff. apply not_true_iff_false. intros K.
           apply hasKey_true in K as [K1 K2]. apply N.
           simpl meta in K1, K2. rewrite <- K1, <- K2.
           unfold keys. apply in_map_iff. exists z. split; [reflexivity|exact I].
Qed.

Lemma named_cleanup_quiet (Drone : Named.Drone) (dr : list Named.Drone)
    (P : list Named.Pod) (cs : list Call) :
  uniqueKeys P ->
  Named.cleanupOwnedResources Drone (mkClient (Named.mkCluster dr P) [] cs)
  = (None,
     mkClient
       (Named.mkCluster dr (filter (fun d => negb (Named.stale Drone d)) P))
       []
       (cs ++ mkCall VList KPod (Namespace (Named.DroneMeta Drone)) "" None
           :: map Named.deleteCall (filter (Named.stale Drone) P))).
Proof.
  intros U. unfold Named.cleanupOwnedResources, bind.
  rewrite clientList_quiet by apply quiet_nil.
  cbn [store faults calls tl Named.pods].
  rewrite named_cleanup_loop_quiet.
  - f_equal. f_equal.
    + f_equal. apply filter_ext_in. intros d I. f_equal.
      unfold Named.stale.
      destruct (Named.ownedBy Drone d
                && negb (Name (Named.PodMeta d)
                         =? Named.SpecName (Named.Spec Drone))) eqn:E.
      * apply andb_true_iff in E as [O Nm]. apply existsb_exists.
        exists d. split; [|exact (@hasKey_self _ Named.Pod_KObject d)].
        apply filter_In. split; [apply filter_In|]; auto.
      * apply not_true_iff_false. intros X.
        apply existsb_exists in X as (x & Ix & K).
        apply filter_In in Ix as [Ix Nx]. apply filter_In in Ix as [Ix Ox].
        apply hasKey_true in K as [K1 K2]. simpl meta in K1, K2.
        assert (d = x) as -> by (apply (uniqueKeys_eq P); auto).
        rewrite Ox, Nx in E. discriminate.
    + rewrite <- app_assoc. cbn [app]. do 3 f_equal.
      rewrite filter_filter. reflexivity.
  - apply (uniqueKeys_filter _ P U).
  - intros x I. now apply filter_In in I.
Qed.

(** A rename converges in one pass: on a store that answers every call
    and holds one pod per key, when no pod bears the name the Drone's
    spec asks for, a pass deletes the pods it owns under other names and
    creates the pod of the new name, then returns nil. *)
Theorem named_pass_replaces_stale_pod
    (req : Request) (c : Client Named.Cluster) (Drone : Named.Drone) :
  faults c = [] ->
  uniqueKeys (Named.pods (store c)) ->
  lookup (ReqNamespace req) (ReqName req) (Named.drones (store c)) = Some Drone ->
  lookup (Namespace (Named.DroneMeta Drone)) (Named.SpecName (Named.Spec Drone))
    (Named.pods (store c)) = None ->
  exists c',
    Named.Reconcile req c = (Return None, c')
    /\ Named.drones (store c') = Named.drones (store c)
    /\ Named.pods (store c')
       = filter (fun x => negb (Named.stale Drone x)) (Named.pods (store c))
         ++ [Named.buildPod Drone]
    /\ writes (calls c')
       = writes (calls c)
         ++ map Named.deleteCall (filter (Named.stale Drone) (Named.pods (store c)))
         ++ [mkCall VCreate KPod (Namespace (Named.DroneMeta Drone))
               (Named.SpecName (Named.Spec Drone)) None].
Proof.
  destruct c as [[dr P] fs cs]. simpl. intros -> U L G.
  unfold Named.Reconcile. unfold bind at 1.
  rewrite clientGet_quiet by apply quiet_nil.
  cbn [store faults calls tl Named.drones]. rewrite L. unfold bind at 1.
  rewrite (named_cleanup_quiet Drone dr P _ U). unfold bind at 1.
  rewrite clientGet_quiet by apply quiet_nil.
  cbn [store faults calls tl Named.pods].
  rewrite (lookup_filter_none _ _ _ _ G). cbn [errOf]. unfold bind.
  rewrite clientCreate_quiet;
    [|apply quiet_nil|simpl; exact (lookup_filter_none _ _ _ _ G)].
  eexists. split; [reflexivity|]. simpl. repeat split.
  rewrite !writes_app. simpl. rewrite !app_nil_r, <- !app_assoc. f_equal.
  f_equal. apply filter_all. intros x I. apply in_map_iff in I as (y & <- & _).
  reflexivity.
Qed.

Lemma named_pass_replaces_witness :
  exists c',
    Named.Reconcile (mkRequest "default" "d") renamed = (Return None, c')
    /\ map (fun x => Name (Named.PodMeta x)) (Named.pods (store c')) = ["new"]
    /\ map (fun x => (verb x, callName x)) (writes (calls c'))
       = [(VDelete, "old"); (VCreate, "new")].
Proof.
  destruct (named_pass_replaces_stale_pod (mkRequest "default" "d") renamed
              (namedDrone "new"))
    as (c' & Run & _ & HP & Hc);
    [reflexivity | repeat constructor; cbn; tauto | reflexivity | reflexivity |].
  exists c'. split; [exact Run|]. rewrite HP, Hc. split; reflexivity.
Defined.

(** The status update cannot fail a pass: once the Drone is fetched,
    the garbage collection has returned nil and the pod is found,
    [Reconcile] returns nil whatever [Status().Update] answered; the
    call's error is in the log and nowhere else. *)
Theorem named_status_update_result_is_discarded
    (req : Request) (c c1 c2 c3 c4 : Client Named.Cluster)
    (Drone : Named.Drone) (pod : Named.Pod) (e : option error) :
  clientGet KDrone Named.drones (ReqNamespace req) (ReqName req) c
    = (inr Drone, c1) ->
  Named.cleanupOwnedResources Drone c1 = (None, c2) ->
  clientGet KPod Named.pods (Namespace (Named.DroneMeta Drone))
    (Named.SpecName (Named.Spec Drone)) c2 = (inr pod, c3) ->
  clientWrite KDrone Named.drones Named.setDrones VStatusUpdate Named.mergeStatus
    (Named.withStatusName Drone (Name (Named.PodMeta pod))) c3 = (e, c4) ->
  Named.Reconcile req c = (Return None, c4)
  /\ calls c4
     = calls c3
       ++ [mkCall VStatusUpdate KDrone (Namespace (Named.DroneMeta Drone))
             (Name (Named.DroneMeta Drone)) e].
Proof.
  intros G C P W. split.
  - unfold Named.Reconcile, bind. now rewrite G, C, P, W.
  - now apply clientWrite_log in W.
Qed.

Lemma named_status_update_witness :
  exists c4,
    Named.Reconcile (mkRequest "default" "d") namedInPlace = (Return None, c4)
    /\ writes (calls c4)
       = [mkCall VStatusUpdate KDrone "default" "d" (Some (Transient Conflict))].
Proof.
  eexists. split.
  - eapply (named_status_update_result_is_discarded (mkRequest "default" "d")
              namedInPlace _ _ _ _ (namedDrone "new")
              (Named.buildPod (namedDrone "new")) (Some (Transient Conflict)));
      vm_compute; reflexivity.
  - reflexivity.
Defined.

(** Status sync: on a store that answers every call and holds one pod
    per key, when the pod of the asked name exists a pass records that
    name in the Drone's status, keeps the Drone's spec and metadata, and
    removes no pod but the stale ones. *)
Theorem named_pass_records_pod_name
    (req : Request) (c : Client Named.Cluster) (Drone : Named.Drone)
    (pod : Named.Pod) :
  faults c = [] ->
  uniqueKeys (Named.pods (store c)) ->
  lookup (ReqNamespace req) (ReqName req) (Named.drones (store c)) = Some Drone ->
  lookup (Namespace (Named.DroneMeta Drone)) (Named.SpecName (Named.Spec Drone))
    (Named.pods (store c)) = Some pod ->
  exists c',
    Named.Reconcile req c = (Return None, c')
    /\ lookup (ReqNamespace req) (ReqName req) (Named.drones (store c'))
       = Some (Named.withStatusName Drone (Named.SpecName (Named.Spec Drone)))
    /\ Named.pods (store c')
       = filter (fun x => negb (Named.stale Drone x)) (Named.pods (store c)).
Proof.
  destruct c as [[dr P] fs cs]. simpl. intros -> U L G.
  unfold Named.Reconcile. unfold bind at 1.
  rewrite clientGet_quiet by apply quiet_nil.
  cbn [store faults calls tl Named.drones]. rewrite L. unfold bind at 1.
  rewrite (named_cleanup_quiet Drone dr P _ U). unfold bind at 1.
  rewrite clientGet_quiet by apply quiet_nil.
  cbn [store faults calls tl Named.pods].
  apply lookup_key in G as G'. destruct G' as (_ & _ & Gm). simpl meta in Gm.
  assert (Keep : negb (Named.stale Drone pod) = true).
  { unfold Named.stale. rewrite Gm, String.eqb_refl. simpl.
    now rewrite andb_false_r. }
  rewrite (lookup_filter _ _ _ _ _ G Keep). cbn [errOf]. unfold bind.
  apply lookup_key in L as L'. destruct L' as (_ & Ln & Lm). simpl meta in Ln, Lm.
  rewrite clientWrite_quiet with (old := Drone);
    [|apply quiet_nil|simpl; rewrite Ln, Lm; exact L].
  eexists. split; [reflexivity|]. simpl. rewrite Gm. split; [|reflexivity].
  apply lookup_replace with (old := Drone); auto.
Qed.

Lemma named_pass_records_witness :
  exists c',
    Named.Reconcile (mkRequest "default" "d")
      (mkClient (store namedInPlace) [] []) = (Return None, c')
    /\ lookup "default" "d" (Named.drones (store c'))
       = Some (Named.withStatusName (namedDrone "new") "new").
Proof.
  destruct (named_pass_records_pod_name (mkRequest "default" "d")
              (mkClient (store namedInPlace) [] []) (namedDrone "new")
              (Named.buildPod (namedDrone "new")))
    as (c' & Run & Hl & _);
    [reflexivity | repeat constructor; cbn; tauto | reflexivity | reflexivity |].
  exists c'. split; [exact Run|exact Hl].
Defined.

Lemma swarm_one_create_or_one_delete_witness :
  let run := Fleet.SwarmReconciler.Reconcile "busy_bee" (mkRequest "a" "fleet")
               failingDelete in
  exists new,
    calls (snd run) = calls failingDelete ++ new
    /\ (countVerb VCreate new + countVerb VDelete new <= 1)%nat.
Proof.
  intros run.
  apply (swarm_one_create_or_one_delete "busy_bee" (mkRequest "a" "fleet")
           failingDelete (snd run) (fst run)).
  apply surjective_pairing.
Defined.
